(** * The XR session and frame lifecycle controller of webgl-operate

    A shallow embedding of [source/xrcontroller.ts] (class [XRController])
    over the host interfaces declared in [source/webxr.ts], and the
    properties of its per-frame callback, its teardown and its small
    control surface ([supportsSession], [block], [unblock], [blocked]).

    Conventions of the embedding.
    - A JavaScript [number] is kept as the bit pattern of its IEEE-754
      double, a [Float32Array] as the list of the bit patterns of its
      elements. The controller never computes with either; it only hands
      them on. The literal [0] is the pattern [0].
    - [undefined] and [null] are [None].
    - A method runs in the monad [M]: it reads and writes the [World] (the
      fields of [this], the [RenderView] objects it references, and what the
      host keeps on behalf of the controller), it logs every call that
      leaves the method in a trace, and it completes normally or throws.
    - An [async] method is described by the settlement of the promise it
      returns: fulfilled is [Normal], rejected is [Throw]. An [await] of a
      host promise takes the settlement the host object carries.
    - A host method that [webxr.ts] declares with a plain result
      ([requestAnimationFrame], [getDevicePose], [getViewMatrix],
      [getViewport], [bindFramebuffer], the renderer's [frame]) returns; what
      throws is a member access on [undefined] (a [TypeError]), a failed
      [assert], and a rejected promise. *)

From Stdlib Require Import ZArith Lia.
From stdpp Require Import base option list strings gmap pretty.

(** ** Values *)

Definition number := Z.
Definition Float32Array := list Z.

Inductive JsError :=
| TypeError
| EvalError (message : string)
| DOMException (name : string).

Inductive Completion (A : Type) :=
| Normal (a : A)
| Throw (e : JsError).
Arguments Normal {A} a.
Arguments Throw {A} e.

(** ** The host interfaces of [webxr.ts] *)

Record XRPresentationContext := { canvas_element : nat }.

Record XRSessionCreationOptions := {
  immersive : option bool;
  outputContext : option XRPresentationContext
}.

Inductive XRFrameOfReferenceType := head_model | eye_level | stage.

Record XRFrameOfReferenceOptions := {
  disableStageEmulation : bool;
  stageEmulationHeight : number
}.

Record XRStageBoundsPoint := { bp_x : number; bp_z : number }.

Record XRFrameOfReference := {
  bounds : option (list XRStageBoundsPoint);
  emulatedHeight : number
}.

Inductive XREye := left | right.

Record XRView := {
  eye : XREye;
  projectionMatrix : Float32Array
}.

Record XRViewport := {
  x : number;
  y : number;
  width : number;
  height : number
}.

Record XRDevicePose := {
  poseModelMatrix : Float32Array;
  getViewMatrix : XRView -> Float32Array
}.

Definition WebGLFramebuffer := nat.

Record XRWebGLLayerInit := {
  antialias : bool;
  depth : bool;
  stencil : bool;
  alpha : bool;
  multiview : bool;
  framebufferScaleFactor : number
}.

Record XRWebGLLayer := {
  framebuffer : WebGLFramebuffer;
  getViewport : XRView -> option XRViewport
}.

(** [end_] and [requestFrameOfReference] carry the settlement of the promise
    the host returns; [fires_end] says whether the host, having ended the
    session on [end()], dispatches the session's [end] event to the
    listeners registered on it. *)
Record XRSession := {
  session_id : nat;
  baseLayer : XRWebGLLayer;
  requestFrameOfReference :
    XRFrameOfReferenceType -> option XRFrameOfReferenceOptions ->
    Completion XRFrameOfReference;
  end_ : Completion unit;
  fires_end : bool
}.

Definition set_baseLayer (s : XRSession) (l : XRWebGLLayer) : XRSession :=
  {| session_id := session_id s;
     baseLayer := l;
     requestFrameOfReference := requestFrameOfReference s;
     end_ := end_ s;
     fires_end := fires_end s |}.

Record XRDevice := {
  device_supportsSession : XRSessionCreationOptions -> Completion unit;
  device_requestSession : XRSessionCreationOptions -> Completion XRSession
}.

Record XR := { requestDevice : Completion XRDevice }.

Record Navigator := { xr : option XR }.

Record XRFrame := {
  views : list XRView;
  getDevicePose : option XRFrameOfReference -> option XRDevicePose
}.

(** ** Collaborators that are imported by [xrcontroller.ts] *)

(** The WebGL context behind [gl: any]; [FRAMEBUFFER] is the constant the
    context object carries. *)
Record GL := {
  gl_id : nat;
  FRAMEBUFFER : Z
}.

Record WebGLContextAttributes := {
  compatibleXRDevice : option XRDevice
}.

(** Of [Canvas] ([./canvas]) the controller reads [canvas.context.gl]. *)
Record Canvas := {
  canvas_id : nat;
  context_gl : option GL
}.

(** The renderer is wired in through [set controllable]; the controller
    calls its [frame] method and nothing else. *)
Record Renderer := { renderer_id : nat }.

(** Modelled from the spec: the class [RenderView] of [./renderview] is
    imported by the controller but is not among the sources. The spec
    describes it as one record per eye holding a projection matrix, a view
    matrix and a viewport; the controller builds it without arguments and
    fills it with [set]. *)
Module RenderView.

Record t := {
  projectionMatrix : option Float32Array;
  viewMatrix : option Float32Array;
  viewport : option XRViewport
}.

Definition new : t :=
  {| projectionMatrix := None; viewMatrix := None; viewport := None |}.

Definition set (p v : Float32Array) (vp : option XRViewport) : t :=
  {| projectionMatrix := Some p; viewMatrix := Some v; viewport := vp |}.

End RenderView.

(** Modelled from the spec: [assert] of [./auxiliaries] is imported but is
    not among the sources. It returns when the statement holds and throws
    the message otherwise; the spec's "must be called, and must complete
    successfully, before any other operation that touches the device" is
    enforced through it. *)
Definition assert (statement : bool) (message : string) : Completion unit :=
  if statement then Normal tt else Throw (EvalError message).

(** ** JavaScript arrays of object references

    An array is a list of slots; a slot is [None] when it is a hole. Reading
    a hole or past the end yields [undefined]; writing past the end extends
    the array, leaving holes in between. *)

Abbreviation loc := nat (only parsing).
Abbreviation JsArray := (list (option loc)) (only parsing).

Definition js_get (a : JsArray) (i : nat) : option loc :=
  mjoin (a !! i).

Definition js_set (a : JsArray) (i : nat) (v : loc) : JsArray :=
  if decide (i < length a)
  then <[i := Some v]> a
  else a ++ replicate (i - length a) None ++ [Some v].

(** ** The controller *)

Inductive Callback := onXRFrameCallback.

Record XRController := {
  renderViews : JsArray;
  sessionCreationOptions : XRSessionCreationOptions;
  contextAttributes : WebGLContextAttributes;
  webGLLayerInit : option XRWebGLLayerInit;
  frameOfRefType : XRFrameOfReferenceType;
  frameOfRefOptions : option XRFrameOfReferenceOptions;
  device : option XRDevice;
  session : option XRSession;
  canvas : option Canvas;
  gl : option GL;
  frameOfRef : option XRFrameOfReference;
  renderer : option Renderer;
  _block : bool
}.

(** The world a method runs in: the controller's own fields, the
    [RenderView] objects (a reference is an index into [heap]), and the two
    registrations the host keeps for the controller: the animation-frame
    callbacks requested and not yet delivered, and the sessions on which the
    controller's [end] listener is registered. *)
Record World := {
  this : XRController;
  heap : list RenderView.t;
  frameCallbacks : list (nat * Callback);
  endListeners : list nat
}.

(** Every call that leaves a method. *)
Inductive Event :=
| EvRequestAnimationFrame (sid : nat) (cb : Callback)
| EvGetDevicePose (coordinateSystem : option XRFrameOfReference) (resolved : bool)
| EvBindFramebuffer (g : GL) (target : Z) (fb : WebGLFramebuffer)
| EvGetViewMatrix (view : XRView)
| EvGetViewport (sid : nat) (view : XRView)
| EvRenderViewNew (l : loc)
| EvRenderViewSet (l : loc) (rv : RenderView.t)
| EvRendererFrame (r : Renderer) (elapsedTime : number) (renderViews : JsArray)
| EvConsoleWarn (message : string)
| EvSupportsSession (options : XRSessionCreationOptions)
| EvRequestSession (options : XRSessionCreationOptions)
| EvRequestDevice
| EvCreateCanvas (attributes : WebGLContextAttributes)
| EvNewXRWebGLLayer (sid : nat) (g : option GL) (init : option XRWebGLLayerInit)
| EvRequestFrameOfReference (sid : nat) (type : XRFrameOfReferenceType)
    (options : option XRFrameOfReferenceOptions)
| EvAddEndListener (sid : nat)
| EvSessionEnd (sid : nat).

(** ** The method monad *)

Record Run (A : Type) := mkRun {
  result : Completion A;
  final : World;
  trace : list Event
}.
Arguments mkRun {A} result final trace.
Arguments result {A} r.
Arguments final {A} r.
Arguments trace {A} r.

Definition M (A : Type) := World -> Run A.

#[global] Instance M_ret : MRet M := fun A a w => mkRun (Normal a) w [].

#[global] Instance M_bind : MBind M := fun A B f m w =>
  match m w with
  | mkRun (Normal a) w1 t1 =>
      match f a w1 with
      | mkRun res w2 t2 => mkRun res w2 (t1 ++ t2)
      end
  | mkRun (Throw e) w1 t1 => mkRun (Throw e) w1 t1
  end.

Definition throw {A} (e : JsError) : M A := fun w => mkRun (Throw e) w [].

Definition emit (e : Event) : M unit := fun w => mkRun (Normal tt) w [e].

Definition get_this : M XRController := fun w => mkRun (Normal (this w)) w [].

Definition modify_this (f : XRController -> XRController) : M unit := fun w =>
  mkRun (Normal tt)
    {| this := f (this w); heap := heap w;
       frameCallbacks := frameCallbacks w; endListeners := endListeners w |} [].

(** Member access on a value that may be [undefined]. *)
Definition member {A} (o : option A) : M A :=
  match o with
  | Some a => mret a
  | None => throw TypeError
  end.

(** Settlement of an awaited promise, and completion of a called helper. *)
Definition settle {A} (c : Completion A) : M A :=
  match c with
  | Normal a => mret a
  | Throw e => throw e
  end.

(** [try { body; } catch (e) { handler }] for a body whose effects on the
    world stay when it throws. *)
Definition try_catch {A} (body : M A) (handler : JsError -> M A) : M A := fun w =>
  match body w with
  | mkRun (Normal a) w1 t1 => mkRun (Normal a) w1 t1
  | mkRun (Throw e) w1 t1 =>
      match handler e w1 with
      | mkRun res w2 t2 => mkRun res w2 (t1 ++ t2)
      end
  end.

(** ** Field assignments *)

Definition set_renderViews (a : JsArray) (c : XRController) : XRController :=
  {| renderViews := a;
     sessionCreationOptions := sessionCreationOptions c;
     contextAttributes := contextAttributes c;
     webGLLayerInit := webGLLayerInit c;
     frameOfRefType := frameOfRefType c;
     frameOfRefOptions := frameOfRefOptions c;
     device := device c; session := session c; canvas := canvas c;
     gl := gl c; frameOfRef := frameOfRef c; renderer := renderer c;
     _block := _block c |}.

Definition set_contextAttributes (a : WebGLContextAttributes) (c : XRController)
  : XRController :=
  {| renderViews := renderViews c;
     sessionCreationOptions := sessionCreationOptions c;
     contextAttributes := a;
     webGLLayerInit := webGLLayerInit c;
     frameOfRefType := frameOfRefType c;
     frameOfRefOptions := frameOfRefOptions c;
     device := device c; session := session c; canvas := canvas c;
     gl := gl c; frameOfRef := frameOfRef c; renderer := renderer c;
     _block := _block c |}.

Definition set_device (d : option XRDevice) (c : XRController) : XRController :=
  {| renderViews := renderViews c;
     sessionCreationOptions := sessionCreationOptions c;
     contextAttributes := contextAttributes c;
     webGLLayerInit := webGLLayerInit c;
     frameOfRefType := frameOfRefType c;
     frameOfRefOptions := frameOfRefOptions c;
     device := d; session := session c; canvas := canvas c;
     gl := gl c; frameOfRef := frameOfRef c; renderer := renderer c;
     _block := _block c |}.

Definition set_session (s : option XRSession) (c : XRController) : XRController :=
  {| renderViews := renderViews c;
     sessionCreationOptions := sessionCreationOptions c;
     contextAttributes := contextAttributes c;
     webGLLayerInit := webGLLayerInit c;
     frameOfRefType := frameOfRefType c;
     frameOfRefOptions := frameOfRefOptions c;
     device := device c; session := s; canvas := canvas c;
     gl := gl c; frameOfRef := frameOfRef c; renderer := renderer c;
     _block := _block c |}.

Definition set_canvas (v : option Canvas) (c : XRController) : XRController :=
  {| renderViews := renderViews c;
     sessionCreationOptions := sessionCreationOptions c;
     contextAttributes := contextAttributes c;
     webGLLayerInit := webGLLayerInit c;
     frameOfRefType := frameOfRefType c;
     frameOfRefOptions := frameOfRefOptions c;
     device := device c; session := session c; canvas := v;
     gl := gl c; frameOfRef := frameOfRef c; renderer := renderer c;
     _block := _block c |}.

Definition set_gl (g : option GL) (c : XRController) : XRController :=
  {| renderViews := renderViews c;
     sessionCreationOptions := sessionCreationOptions c;
     contextAttributes := contextAttributes c;
     webGLLayerInit := webGLLayerInit c;
     frameOfRefType := frameOfRefType c;
     frameOfRefOptions := frameOfRefOptions c;
     device := device c; session := session c; canvas := canvas c;
     gl := g; frameOfRef := frameOfRef c; renderer := renderer c;
     _block := _block c |}.

Definition set_frameOfRef (f : option XRFrameOfReference) (c : XRController)
  : XRController :=
  {| renderViews := renderViews c;
     sessionCreationOptions := sessionCreationOptions c;
     contextAttributes := contextAttributes c;
     webGLLayerInit := webGLLayerInit c;
     frameOfRefType := frameOfRefType c;
     frameOfRefOptions := frameOfRefOptions c;
     device := device c; session := session c; canvas := canvas c;
     gl := gl c; frameOfRef := f; renderer := renderer c;
     _block := _block c |}.

Definition set_renderer (r : option Renderer) (c : XRController) : XRController :=
  {| renderViews := renderViews c;
     sessionCreationOptions := sessionCreationOptions c;
     contextAttributes := contextAttributes c;
     webGLLayerInit := webGLLayerInit c;
     frameOfRefType := frameOfRefType c;
     frameOfRefOptions := frameOfRefOptions c;
     device := device c; session := session c; canvas := canvas c;
     gl := gl c; frameOfRef := frameOfRef c; renderer := r;
     _block := _block c |}.

Definition set__block (b : bool) (c : XRController) : XRController :=
  {| renderViews := renderViews c;
     sessionCreationOptions := sessionCreationOptions c;
     contextAttributes := contextAttributes c;
     webGLLayerInit := webGLLayerInit c;
     frameOfRefType := frameOfRefType c;
     frameOfRefOptions := frameOfRefOptions c;
     device := device c; session := session c; canvas := canvas c;
     gl := gl c; frameOfRef := frameOfRef c; renderer := renderer c;
     _block := b |}.

(** ** Calls that leave the controller *)

(** [session.requestAnimationFrame(callback)]: the host appends the callback
    to the session's list of animation-frame callbacks. *)
Definition requestAnimationFrame (s : XRSession) (cb : Callback) : M unit := fun w =>
  mkRun (Normal tt)
    {| this := this w; heap := heap w;
       frameCallbacks := frameCallbacks w ++ [(session_id s, cb)];
       endListeners := endListeners w |}
    [EvRequestAnimationFrame (session_id s) cb].

(** [session.addEventListener('end', () => this.onEndSession())]. *)
Definition addEndListener (s : XRSession) : M unit := fun w =>
  mkRun (Normal tt)
    {| this := this w; heap := heap w;
       frameCallbacks := frameCallbacks w;
       endListeners := endListeners w ++ [session_id s] |}
    [EvAddEndListener (session_id s)].

(** [new RenderView()]: a fresh object; its reference is returned. *)
Definition new_RenderView : M loc := fun w =>
  let l := length (heap w) in
  mkRun (Normal l)
    {| this := this w; heap := heap w ++ [RenderView.new];
       frameCallbacks := frameCallbacks w; endListeners := endListeners w |}
    [EvRenderViewNew l].

(** [rv.set(p, v, vp)] on the object behind the reference: the object is
    overwritten where it is. *)
Definition RenderView_set (l : loc) (p v : Float32Array) (vp : option XRViewport)
  : M unit := fun w =>
  mkRun (Normal tt)
    {| this := this w; heap := <[l := RenderView.set p v vp]> (heap w);
       frameCallbacks := frameCallbacks w; endListeners := endListeners w |}
    [EvRenderViewSet l (RenderView.set p v vp)].

(** ** The methods of [XRController] *)

(** [navigator.xr !== undefined]. *)
Definition supportsXR (nav : Navigator) : bool :=
  match xr nav with Some _ => true | None => false end.

(** The field initialisers and the constructor (lines 22-62): one pooled
    [RenderView], [sessionOpts || {}], empty context attributes,
    ['eye-level'], not blocked; everything else [undefined]. *)
Definition constructor (sessionOpts : option XRSessionCreationOptions) : World :=
  {| this :=
       {| renderViews := [Some 0%nat];
          sessionCreationOptions :=
            default {| immersive := None; outputContext := None |} sessionOpts;
          contextAttributes := {| compatibleXRDevice := None |};
          webGLLayerInit := None;
          frameOfRefType := eye_level;
          frameOfRefOptions := None;
          device := None; session := None; canvas := None; gl := None;
          frameOfRef := None; renderer := None;
          _block := false |};
     heap := [RenderView.new];
     frameCallbacks := [];
     endListeners := [] |}.

(** [initialize] (lines 69-73). Of the context attributes only
    [compatibleXRDevice] is kept, so assigning it replaces the record. *)
Definition initialize (nav : Navigator) : M unit :=
  settle (assert (supportsXR nav) "WebXR not supported by browser");;
  entry ← member (xr nav);
  emit EvRequestDevice;;
  d ← settle (requestDevice entry);
  modify_this (set_device (Some d));;
  modify_this (set_contextAttributes {| compatibleXRDevice := Some d |}).

(** [supportsSession] (lines 79-87): the assert stands before the [try],
    the device's query inside it. *)
Definition supportsSession : M bool :=
  c ← get_this;
  settle (assert (bool_decide (is_Some (device c))) "this.device not initialized");;
  try_catch
    (c ← get_this;
     d ← member (device c);
     emit (EvSupportsSession (sessionCreationOptions c));;
     settle (device_supportsSession d (sessionCreationOptions c));;
     mret true)
    (fun _ => mret false).

(** What [requestSession] obtains from the page: the [Canvas] built from
    the context attributes (its constructor is handed [this] and may call
    into the controller) and the [XRWebGLLayer] built for the session. *)
Record Page := {
  new_Canvas : WebGLContextAttributes -> M Canvas;
  new_XRWebGLLayer :
    XRSession -> option GL -> option XRWebGLLayerInit -> XRWebGLLayer
}.

(** [requestSession] (lines 97-112). *)
Definition requestSession (page : Page) : M unit :=
  c ← get_this;
  d ← member (device c);
  emit (EvRequestSession (sessionCreationOptions c));;
  s ← settle (device_requestSession d (sessionCreationOptions c));
  modify_this (set_session (Some s));;
  c ← get_this;
  emit (EvCreateCanvas (contextAttributes c));;
  cv ← new_Canvas page (contextAttributes c);
  modify_this (set_canvas (Some cv));;
  c ← get_this;
  cv ← member (canvas c);
  modify_this (set_gl (context_gl cv));;
  c ← get_this;
  s ← member (session c);
  emit (EvNewXRWebGLLayer (session_id s) (gl c) (webGLLayerInit c));;
  modify_this
    (set_session
       (Some (set_baseLayer s (new_XRWebGLLayer page s (gl c) (webGLLayerInit c)))));;
  c ← get_this;
  s ← member (session c);
  emit (EvRequestFrameOfReference (session_id s) (frameOfRefType c) (frameOfRefOptions c));;
  f ← settle (requestFrameOfReference s (frameOfRefType c) (frameOfRefOptions c));
  modify_this (set_frameOfRef (Some f));;
  c ← get_this;
  s ← member (session c);
  requestAnimationFrame s onXRFrameCallback;;
  c ← get_this;
  s ← member (session c);
  addEndListener s.

(** [onEndSession] (lines 118-123). *)
Definition onEndSession : M unit :=
  modify_this (set_session None);;
  modify_this (set_canvas None);;
  modify_this (set_gl None);;
  modify_this (set_frameOfRef None).

(** The host dispatching the session's [end] event: every listener the
    controller registered on that session runs [onEndSession]. *)
Fixpoint dispatch_end (sid : nat) (listeners : list nat) : M unit :=
  match listeners with
  | [] => mret tt
  | l :: rest =>
      (if decide (l = sid) then onEndSession else mret tt);;
      dispatch_end sid rest
  end.

(** [endSession] (lines 114-116), [await this.session!.end()]: the host
    ends the session, settles the promise and, when it fires the [end]
    event, runs the listeners. *)
Definition endSession : M unit :=
  c ← get_this;
  s ← member (session c);
  emit (EvSessionEnd (session_id s));;
  (if fires_end s
   then (fun w => dispatch_end (session_id s) (endListeners w) w)
   else mret tt);;
  settle (end_ s).

(** The device ending the session on its own: only the [end] event. *)
Definition device_end (sid : nat) : M unit := fun w =>
  dispatch_end sid (endListeners w) w.

(** The body of the loop over [frame.views] of [onXRFrame] (lines 136-144),
    at index [i]: the slot is filled with a new object when it reads as
    [undefined], then the object in the slot is written. *)
Definition onXRFrame_view (pose : XRDevicePose) (i : nat) (view : XRView) : M unit :=
  c ← get_this;
  match js_get (renderViews c) i with
  | Some _ => mret tt
  | None =>
      l ← new_RenderView;
      modify_this (fun c => set_renderViews (js_set (renderViews c) i l) c)
  end;;
  c ← get_this;
  rv ← member (js_get (renderViews c) i);
  emit (EvGetViewMatrix view);;
  s ← member (session c);
  emit (EvGetViewport (session_id s) view);;
  RenderView_set rv (projectionMatrix view) (getViewMatrix pose view)
    (getViewport (baseLayer s) view).

(** [for (let i = 0; i < frame.views.length; ++i)], entered at index [i]
    with the views from [i] on still to do. *)
Fixpoint onXRFrame_views (pose : XRDevicePose) (i : nat) (vs : list XRView) : M unit :=
  match vs with
  | [] => mret tt
  | view :: rest =>
      onXRFrame_view pose i view;;
      onXRFrame_views pose (S i) rest
  end.

(** [onXRFrame] (lines 125-152). *)
Definition onXRFrame (time : number) (frame : XRFrame) : M unit :=
  c ← get_this;
  s ← member (session c);
  requestAnimationFrame s onXRFrameCallback;;
  c ← get_this;
  let gl := gl c in
  emit (EvGetDevicePose (frameOfRef c) (bool_decide (is_Some (getDevicePose frame (frameOfRef c)))));;
  match getDevicePose frame (frameOfRef c) with
  | Some pose =>
      g ← member gl;
      c ← get_this;
      s ← member (session c);
      emit (EvBindFramebuffer g (FRAMEBUFFER g) (framebuffer (baseLayer s)));;
      onXRFrame_views pose 0 (views frame);;
      c ← get_this;
      r ← member (renderer c);
      emit (EvRendererFrame r 0%Z (renderViews c))
  | None =>
      emit (EvConsoleWarn "no pose - this is not handled yet.")
  end.

(** The control surface (lines 156-173). *)
Definition block : M unit := modify_this (set__block true).

Definition blocked : M bool := c ← get_this; mret (_block c).

Definition unblock : M unit := modify_this (set__block false).

(** [set controllable(c)]. *)
Definition controllable (r : Renderer) : M unit :=
  modify_this (set_renderer (Some r)).

Definition update (force : bool) : M unit := mret tt.

(** ** Running sequences *)

(** The host delivering a frame to a session: it takes the callbacks that
    are pending, empties the list, and invokes them in turn with the frame;
    a callback that throws does not keep the host from invoking the next.
    The traces are concatenated. *)
Definition take_callbacks (w : World) : World :=
  {| this := this w; heap := heap w; frameCallbacks := [];
     endListeners := endListeners w |}.

Fixpoint run_callbacks (cbs : list (nat * Callback)) (time : number)
    (frame : XRFrame) (w : World) : World * list Event :=
  match cbs with
  | [] => (w, [])
  | (_, onXRFrameCallback) :: rest =>
      let r := onXRFrame time frame w in
      let '(w', tr) := run_callbacks rest time frame (final r) in
      (w', trace r ++ tr)
  end.

Definition deliver (time : number) (frame : XRFrame) (w : World)
  : World * list Event :=
  run_callbacks (frameCallbacks w) time frame (take_callbacks w).

(** A sequence of frames delivered one after the other. *)
Fixpoint frames (fs : list (number * XRFrame)) (w : World) : World * list Event :=
  match fs with
  | [] => (w, [])
  | (time, frame) :: rest =>
      let '(w1, t1) := deliver time frame w in
      let '(w2, t2) := frames rest w1 in
      (w2, t1 ++ t2)
  end.

(** The calls a client can make in any order, for the control surface:
    the methods that take no page. [requestSession], which builds a canvas
    from the page, and the events of the host are steps of [Step] below. *)
Inductive Call :=
| CBlock
| CUnblock
| CUpdate (force : bool)
| CControllable (r : Renderer)
| COnXRFrame (time : number) (frame : XRFrame)
| COnEndSession
| CEndSession
| CSupportsSession
| CInitialize (nav : Navigator).

Definition call (c : Call) (w : World) : World :=
  match c with
  | CBlock => final (block w)
  | CUnblock => final (unblock w)
  | CUpdate force => final (update force w)
  | CControllable r => final (controllable r w)
  | COnXRFrame time frame => final (onXRFrame time frame w)
  | COnEndSession => final (onEndSession w)
  | CEndSession => final (endSession w)
  | CSupportsSession => final (supportsSession w)
  | CInitialize nav => final (initialize nav w)
  end.

Definition calls (cs : list Call) (w : World) : World := foldl (fun w c => call c w) w cs.

(** The most recent of [block()] and [unblock()] in a sequence of calls, if
    there is one. *)
Fixpoint last_block (cs : list Call) (sofar : bool) : bool :=
  match cs with
  | [] => sofar
  | CBlock :: rest => last_block rest true
  | CUnblock :: rest => last_block rest false
  | _ :: rest => last_block rest sofar
  end.

(** ** Predicates of the statements *)

(** The calls of the renderer's [frame] in a trace, as (elapsed time,
    submitted array). *)
Definition submissions (tr : list Event) : list (number * JsArray) :=
  omap (fun e => match e with
                 | EvRendererFrame _ t a => Some (t, a)
                 | _ => None
                 end) tr.

Definition is_registration (e : Event) : bool :=
  match e with EvRequestAnimationFrame _ _ => true | _ => false end.

(** The world with only the block flag replaced. *)
Definition with_block (b : bool) (w : World) : World :=
  {| this := set__block b (this w); heap := heap w;
     frameCallbacks := frameCallbacks w; endListeners := endListeners w |}.

(** The world with only the pool replaced. *)
Definition with_pool (a : JsArray) (hp : list RenderView.t) (w : World) : World :=
  {| this := set_renderViews a (this w); heap := hp;
     frameCallbacks := frameCallbacks w; endListeners := endListeners w |}.

(** The session-scoped fields of a controller are all cleared. *)
Definition cleared (c : XRController) : Prop :=
  session c = None /\ canvas c = None /\ gl c = None /\ frameOfRef c = None.

(** The pool has no holes, every reference in it points at an object, and
    no two slots share one. *)
Definition pool_ok (a : JsArray) (hp : list RenderView.t) : Prop :=
  (forall i, a !! i <> Some None) /\
  (forall i l, a !! i = Some (Some l) -> l < length hp) /\
  (forall i j l, a !! i = Some (Some l) -> a !! j = Some (Some l) -> i = j).

(** The object a slot of an array refers to. *)
Definition deref (hp : list RenderView.t) (a : JsArray) (i : nat) : option RenderView.t :=
  js_get a i ≫= fun l => hp !! l.

(** What the loop of [onXRFrame] writes into the slot of a view. *)
Definition view_record (s : XRSession) (pose : XRDevicePose) (view : XRView)
  : RenderView.t :=
  RenderView.set (projectionMatrix view) (getViewMatrix pose view)
    (getViewport (baseLayer s) view).

(** ** The loop of [onXRFrame] read as a function on the pool

    [step_pool] is what one round of the loop does to the array and to the
    objects, given the record [rv] it writes; [fill] is the whole loop from
    index [i] on. Both are proved to be what [onXRFrame_views] computes. *)
Definition step_pool (a : JsArray) (hp : list RenderView.t) (i : nat)
    (rv : RenderView.t) : JsArray * list RenderView.t :=
  match js_get a i with
  | Some l => (a, <[l := rv]> hp)
  | None =>
      (js_set a i (length hp), <[length hp := rv]> (hp ++ [RenderView.new]))
  end.

Fixpoint fill (rvs : list RenderView.t) (i : nat) (a : JsArray)
    (hp : list RenderView.t) : JsArray * list RenderView.t :=
  match rvs with
  | [] => (a, hp)
  | rv :: rest => fill rest (S i) (step_pool a hp i rv).1 (step_pool a hp i rv).2
  end.

(** The calls one round of the loop makes, and those of the whole loop. *)
Definition step_trace (s : XRSession) (pose : XRDevicePose) (a : JsArray)
    (hp : list RenderView.t) (i : nat) (view : XRView) : list Event :=
  match js_get a i with
  | Some l =>
      [EvGetViewMatrix view; EvGetViewport (session_id s) view;
       EvRenderViewSet l (view_record s pose view)]
  | None =>
      [EvRenderViewNew (length hp); EvGetViewMatrix view;
       EvGetViewport (session_id s) view;
       EvRenderViewSet (length hp) (view_record s pose view)]
  end.

Fixpoint fill_trace (s : XRSession) (pose : XRDevicePose) (vs : list XRView)
    (i : nat) (a : JsArray) (hp : list RenderView.t) : list Event :=
  match vs with
  | [] => []
  | view :: rest =>
      step_trace s pose a hp i view ++
      fill_trace s pose rest (S i)
        (step_pool a hp i (view_record s pose view)).1
        (step_pool a hp i (view_record s pose view)).2
  end.

(** The calls made inside the loop over the views. *)
Definition is_view_event (e : Event) : bool :=
  match e with
  | EvGetViewMatrix _ | EvGetViewport _ _
  | EvRenderViewNew _ | EvRenderViewSet _ _ => true
  | _ => false
  end.

(** The world after the host has taken one more animation-frame callback
    for the session. *)
Definition with_callback (s : XRSession) (w : World) : World :=
  {| this := this w; heap := heap w;
     frameCallbacks := frameCallbacks w ++ [(session_id s, onXRFrameCallback)];
     endListeners := endListeners w |}.

(** The pool and the objects as [onXRFrame] leaves them when the pose
    resolves. *)
Definition filled (s : XRSession) (pose : XRDevicePose) (frame : XRFrame)
    (w : World) : JsArray * list RenderView.t :=
  fill (view_record s pose <$> views frame) 0 (renderViews (this w)) (heap w).

Definition filled_trace (s : XRSession) (pose : XRDevicePose) (frame : XRFrame)
    (w : World) : list Event :=
  fill_trace s pose (views frame) 0 (renderViews (this w)) (heap w).

(** The shapes a run of [onXRFrame] can have, by what the controller holds
    and what the frame answers. *)
Inductive frame_run (frame : XRFrame) (w : World) : Run unit -> Prop :=
| run_no_session :
    session (this w) = None ->
    frame_run frame w (mkRun (Throw TypeError) w [])
| run_no_pose s :
    session (this w) = Some s ->
    getDevicePose frame (frameOfRef (this w)) = None ->
    frame_run frame w
      (mkRun (Normal tt) (with_callback s w)
         [EvRequestAnimationFrame (session_id s) onXRFrameCallback;
          EvGetDevicePose (frameOfRef (this w)) false;
          EvConsoleWarn "no pose - this is not handled yet."])
| run_no_gl s pose :
    session (this w) = Some s ->
    getDevicePose frame (frameOfRef (this w)) = Some pose ->
    gl (this w) = None ->
    frame_run frame w
      (mkRun (Throw TypeError) (with_callback s w)
         [EvRequestAnimationFrame (session_id s) onXRFrameCallback;
          EvGetDevicePose (frameOfRef (this w)) true])
| run_posed s pose g :
    session (this w) = Some s ->
    getDevicePose frame (frameOfRef (this w)) = Some pose ->
    gl (this w) = Some g ->
    frame_run frame w
      (mkRun
         (match renderer (this w) with
          | Some _ => Normal tt
          | None => Throw TypeError
          end)
         (with_pool (filled s pose frame w).1 (filled s pose frame w).2
            (with_callback s w))
         ([EvRequestAnimationFrame (session_id s) onXRFrameCallback;
           EvGetDevicePose (frameOfRef (this w)) true;
           EvBindFramebuffer g (FRAMEBUFFER g) (framebuffer (baseLayer s))]
          ++ filled_trace s pose frame w ++
          match renderer (this w) with
          | Some r => [EvRendererFrame r 0%Z (filled s pose frame w).1]
          | None => []
          end)).

(** ** A mock host

    A device that supports windowed sessions and rejects immersive ones, a
    session with a stereo layer, and frames with two views, with one view,
    and without a pose. *)
Module Mock.

Definition viewport_of (v : XRView) : option XRViewport :=
  match eye v with
  | left => Some {| x := 0%Z; y := 0%Z; width := 960%Z; height := 1080%Z |}
  | right => Some {| x := 960%Z; y := 0%Z; width := 960%Z; height := 1080%Z |}
  end.

Definition layer : XRWebGLLayer :=
  {| framebuffer := 7; getViewport := viewport_of |}.

Definition reference : XRFrameOfReference :=
  {| bounds := None; emulatedHeight := 0%Z |}.

Definition the_session : XRSession :=
  {| session_id := 1;
     baseLayer := layer;
     requestFrameOfReference := fun _ _ => Normal reference;
     end_ := Normal tt;
     fires_end := true |}.

Definition the_device : XRDevice :=
  {| device_supportsSession := fun o =>
       match immersive o with
       | Some true => Throw (DOMException "NotSupportedError")
       | _ => Normal tt
       end;
     device_requestSession := fun _ => Normal the_session |}.

Definition navigator : Navigator :=
  {| xr := Some {| requestDevice := Normal the_device |} |}.

Definition context : GL := {| gl_id := 4; FRAMEBUFFER := 36160%Z |}.

Definition page : Page :=
  {| new_Canvas := fun _ => mret {| canvas_id := 3; context_gl := Some context |};
     new_XRWebGLLayer := fun _ _ _ => layer |}.

Definition the_renderer : Renderer := {| renderer_id := 9 |}.

Definition left_view : XRView := {| eye := left; projectionMatrix := [5%Z] |}.
Definition right_view : XRView := {| eye := right; projectionMatrix := [6%Z] |}.

Definition the_pose : XRDevicePose :=
  {| poseModelMatrix := [1%Z];
     getViewMatrix := fun v =>
       match eye v with left => [10%Z] | right => [20%Z] end |}.

Definition stereo_frame : XRFrame :=
  {| views := [left_view; right_view]; getDevicePose := fun _ => Some the_pose |}.

Definition later_pose : XRDevicePose :=
  {| poseModelMatrix := [2%Z];
     getViewMatrix := fun v =>
       match eye v with left => [11%Z] | right => [21%Z] end |}.

Definition mono_frame : XRFrame :=
  {| views := [left_view]; getDevicePose := fun _ => Some later_pose |}.

Definition lost_frame : XRFrame :=
  {| views := [left_view; right_view]; getDevicePose := fun _ => None |}.

Definition immersive_options : XRSessionCreationOptions :=
  {| immersive := Some true; outputContext := None |}.

(** After [new XRController()], [initialize()] and the renderer wired in. *)
Definition ready : World :=
  final (controllable the_renderer (final (initialize navigator (constructor None)))).

(** After [new XRController({immersive: true})] and [initialize()]. *)
Definition ready_immersive : World :=
  final (initialize navigator (constructor (Some immersive_options))).

(** After [requestSession()]: the session runs, one callback is pending. *)
Definition active : World := final (requestSession page ready).

(** The world in which the host invokes the pending callback. *)
Definition invoked : World := take_callbacks active.

(** After a stereo frame was delivered: the pool holds two entries. *)
Definition after_stereo : World := (deliver 16%Z stereo_frame active).1.

(** The world in which the host invokes the callback the next time. *)
Definition invoked_again : World := take_callbacks after_stereo.

(** After [endSession()]. *)
Definition ended : World := final (endSession active).

(** A session whose frame of reference is rejected, and its device. *)
Definition lost_session : XRSession :=
  {| session_id := 2;
     baseLayer := layer;
     requestFrameOfReference := fun _ _ => Throw (DOMException "NotSupportedError");
     end_ := Normal tt;
     fires_end := true |}.

Definition lost_device : XRDevice :=
  {| device_supportsSession := fun _ => Normal tt;
     device_requestSession := fun _ => Normal lost_session |}.

(** After [initialize()] and a [requestSession()] that was rejected at the
    frame of reference: the session is stored, the end listener is not
    registered. *)
Definition half_started : World :=
  final (requestSession page
           (final (initialize {| xr := Some {| requestDevice := Normal lost_device |} |}
                     (constructor None)))).

End Mock.

(** ** The statements of the specification, as predicates *)

(** Whether a promise of the host was fulfilled. *)
Definition fulfilled {A} (c : Completion A) : bool :=
  match c with Normal _ => true | Throw _ => false end.

(** The controller as the four assignments of [onEndSession] leave it. *)
Definition torn_down (c : XRController) : XRController :=
  set_frameOfRef None (set_gl None (set_canvas None (set_session None c))).

Definition with_this (c : XRController) (w : World) : World :=
  {| this := c; heap := heap w;
     frameCallbacks := frameCallbacks w; endListeners := endListeners w |}.

(** "The controller submits exactly the slice [0, N) of the pool": every
    array handed to the renderer's [frame] is the first [N] slots of the
    pool, [N] the number of views of the frame. *)
Definition submits_exact_slice (time : number) (frame : XRFrame) (w : World) : Prop :=
  forall t a,
    In (t, a) (submissions (trace (onXRFrame time frame w))) ->
    a = take (length (views frame))
          (renderViews (this (final (onXRFrame time frame w)))).

(** "Ending an already-ended session is a no-op": no error, no change. *)
Definition endSession_is_noop (w : World) : Prop :=
  result (endSession w) = Normal tt /\ final (endSession w) = w.


(** "The pool's length is at least the number of views the device reported
    for the current frame", after the frame's invocation. *)
Definition pool_covers_views (time : number) (frame : XRFrame) (w : World) : Prop :=
  length (views frame) <= length (renderViews (this (final (onXRFrame time frame w)))).

(** ** The canvas and the control surface

    [block], [unblock], [update] and [set controllable] are the members a
    canvas addresses on its controller. A page whose canvas constructor uses
    the controller handed to it only through these is described by the
    canvas it returns and the calls it makes. *)

Definition surface_call (c : Call) : bool :=
  match c with
  | CBlock | CUnblock | CUpdate _ | CControllable _ => true
  | _ => false
  end.

(** The renderer wired in by the last [set controllable] of a sequence of
    calls, if there is one. *)
Fixpoint last_renderer (cs : list Call) (sofar : option Renderer) : option Renderer :=
  match cs with
  | [] => sofar
  | CControllable r :: rest => last_renderer rest (Some r)
  | _ :: rest => last_renderer rest sofar
  end.

Definition canvas_via_surface (page : Page) (cv : Canvas) (cs : list Call) : Prop :=
  forallb surface_call cs = true /\
  forall attributes w, new_Canvas page attributes w = mkRun (Normal cv) (calls cs w) [].

(** The controller after the calls of such a canvas. *)
Definition after_surface (cs : list Call) (c : XRController) : XRController :=
  set_renderer (last_renderer cs (renderer c)) (set__block (last_block cs (_block c)) c).

(** The session as [requestSession] stores it: with the layer built for it. *)
Definition layered (page : Page) (s : XRSession) (cv : Canvas)
    (c : XRController) : XRSession :=
  set_baseLayer s (new_XRWebGLLayer page s (context_gl cv) (webGLLayerInit c)).

(** Whether a frame's pose resolves against a frame of reference. *)
Definition posed (f : option XRFrameOfReference) (tf : number * XRFrame) : bool :=
  bool_decide (is_Some (getDevicePose tf.2 f)).

(** A controller in the middle of a session, ready to render: session,
    graphics handle and renderer at hand, and its one callback pending. *)
Definition running (s : XRSession) (w : World) : Prop :=
  session (this w) = Some s /\
  is_Some (gl (this w)) /\
  is_Some (renderer (this w)) /\
  frameCallbacks w = [(session_id s, onXRFrameCallback)].

(** The controller as [requestSession] leaves it once the session, the
    canvas and the layer are in place. *)
Definition with_session (page : Page) (s : XRSession) (cv : Canvas)
    (cs : list Call) (c : XRController) : XRController :=
  set_session (Some (layered page s cv c))
    (set_gl (context_gl cv)
       (set_canvas (Some cv) (after_surface cs (set_session (Some s) c)))).

(** The world after a successful [requestSession]. *)
Definition session_started (page : Page) (s : XRSession) (cv : Canvas)
    (cs : list Call) (f : XRFrameOfReference) (w : World) : World :=
  {| this := set_frameOfRef (Some f) (with_session page s cv cs (this w));
     heap := heap w;
     frameCallbacks := frameCallbacks w ++ [(session_id s, onXRFrameCallback)];
     endListeners := endListeners w ++ [session_id s] |}.

(** A controller with other values in the four fields of a session. *)
Definition with_session_fields (s : option XRSession) (cv : option Canvas)
    (g : option GL) (f : option XRFrameOfReference) (c : XRController)
  : XRController :=
  set_frameOfRef f (set_gl g (set_canvas cv (set_session s c))).

(** Whether the device of the controller grants a session, so that
    [requestSession] gets as far as building the canvas. *)
Definition granted (w : World) : bool :=
  match device (this w) with
  | Some d => fulfilled (device_requestSession d (sessionCreationOptions (this w)))
  | None => false
  end.

(** ** The life of a controller

    What can happen to a controller once it is constructed: a call of one
    of its methods, [requestSession] on a page, the host delivering a frame
    to the callbacks that are pending, and the device ending a session on
    its own. *)
Inductive Step :=
| SCall (c : Call)
| SRequestSession (page : Page)
| SDeliver (time : number) (frame : XRFrame)
| SDeviceEnd (sid : nat).

Definition step (st : Step) (w : World) : World :=
  match st with
  | SCall c => call c w
  | SRequestSession page => final (requestSession page w)
  | SDeliver time frame => (deliver time frame w).1
  | SDeviceEnd sid => final (device_end sid w)
  end.

Definition steps (ss : list Step) (w : World) : World :=
  foldl (fun w st => step st w) w ss.

(** The page of a step builds its canvas through the control surface. *)
Definition via_surface (st : Step) : Prop :=
  match st with
  | SRequestSession page => exists cv cs, canvas_via_surface page cv cs
  | _ => True
  end.

(** The pool is well formed, not empty, and holds every [RenderView] that
    was ever created. *)
Definition pool_inv (w : World) : Prop :=
  pool_ok (renderViews (this w)) (heap w) /\
  1 <= length (renderViews (this w)) /\
  length (heap w) = length (renderViews (this w)).

(** ** The earlier controller

    The version of the controller in the source file that also declares the
    [RenderView] class itself (a record built with its three values). Its
    per-frame callback keeps no pool: it builds a new array of new records
    for every frame. The callback it registers is the arrow
    [() => this.onXRFrame]. *)
Module Legacy.

Module RenderView.

Record t := {
  projectionMatrix : Float32Array;
  viewMatrix : Float32Array;
  viewport : option XRViewport
}.

(** [new RenderView(projectionMatrix, viewMatrix, viewport)]. *)
Definition new (p v : Float32Array) (vp : option XRViewport) : t :=
  {| projectionMatrix := p; viewMatrix := v; viewport := vp |}.

End RenderView.

Record XRController := {
  sessionCreationOptions : option XRSessionCreationOptions;
  contextAttributes : WebGLContextAttributes;
  webGLLayerInit : option XRWebGLLayerInit;
  frameOfRefType : XRFrameOfReferenceType;
  frameOfRefOptions : option XRFrameOfReferenceOptions;
  device : option XRDevice;
  session : option XRSession;
  gl : option GL;
  frameOfRef : option XRFrameOfReference;
  renderer : option Renderer
}.

(** The controller's fields and the sessions for which the host holds a
    callback of the controller. *)
Record World := {
  this : XRController;
  frameCallbacks : list nat
}.

Inductive Event :=
| EvRequestAnimationFrame (sid : nat)
| EvGetDevicePose (coordinateSystem : option XRFrameOfReference) (resolved : bool)
| EvBindFramebuffer (g : GL) (target : Z) (fb : WebGLFramebuffer)
| EvGetViewMatrix (view : XRView)
| EvGetViewport (sid : nat) (view : XRView)
| EvRendererFrame (r : Renderer) (elapsedTime : number) (renderViews : list RenderView.t).

Record Run := mkRun {
  result : Completion unit;
  final : World;
  trace : list Event
}.

(** [session.requestAnimationFrame(() => this.onXRFrame)]. *)
Definition registered (s : XRSession) (w : World) : World :=
  {| this := this w; frameCallbacks := frameCallbacks w ++ [session_id s] |}.

(** [for (const view of frame.views) renderViews.push(new RenderView(...))]:
    the array built so far, the views still to do. The arguments of the
    constructor are evaluated left to right. *)
Fixpoint onXRFrame_views (pose : XRDevicePose) (w : World) (vs : list XRView)
    (renderViews : list RenderView.t) : Completion (list RenderView.t) * list Event :=
  match vs with
  | [] => (Normal renderViews, [])
  | view :: rest =>
      match session (this w) with
      | None => (Throw TypeError, [EvGetViewMatrix view])
      | Some s =>
          let rv := RenderView.new (projectionMatrix view) (getViewMatrix pose view)
                      (getViewport (baseLayer s) view) in
          let '(res, tr) := onXRFrame_views pose w rest (renderViews ++ [rv]) in
          (res, [EvGetViewMatrix view; EvGetViewport (session_id s) view] ++ tr)
      end
  end.

Definition onXRFrame (time : number) (frame : XRFrame) (w : World) : Run :=
  match session (this w) with
  | None => mkRun (Throw TypeError) w []
  | Some s =>
      let w1 := registered s w in
      let gl := gl (this w1) in
      let registration := EvRequestAnimationFrame (session_id s) in
      let query :=
        EvGetDevicePose (frameOfRef (this w1))
          (bool_decide (is_Some (getDevicePose frame (frameOfRef (this w1))))) in
      match getDevicePose frame (frameOfRef (this w1)) with
      | None => mkRun (Normal tt) w1 [registration; query]
      | Some pose =>
          match gl, session (this w1) with
          | None, _ | _, None => mkRun (Throw TypeError) w1 [registration; query]
          | Some g, Some s1 =>
              let bind := EvBindFramebuffer g (FRAMEBUFFER g) (framebuffer (baseLayer s1)) in
              match onXRFrame_views pose w1 (views frame) [] with
              | (Throw e, tr) => mkRun (Throw e) w1 ([registration; query; bind] ++ tr)
              | (Normal renderViews, tr) =>
                  match renderer (this w1) with
                  | None => mkRun (Throw TypeError) w1 ([registration; query; bind] ++ tr)
                  | Some r =>
                      mkRun (Normal tt) w1
                        ([registration; query; bind] ++ tr ++
                         [EvRendererFrame r 0%Z renderViews])
                  end
              end
          end
      end
  end.

(** The arrays handed to the renderer in a trace, with the elapsed time. *)
Definition submissions (tr : list Event) : list (number * list RenderView.t) :=
  omap (fun e => match e with
                 | EvRendererFrame _ t a => Some (t, a)
                 | _ => None
                 end) tr.

(** The record the callback builds for a view. *)
Definition view_record (s : XRSession) (pose : XRDevicePose) (view : XRView)
  : RenderView.t :=
  RenderView.new (projectionMatrix view) (getViewMatrix pose view)
    (getViewport (baseLayer s) view).

End Legacy.

(** A record of the earlier controller and a pooled record with the same
    three values. *)
Definition same_record (old : Legacy.RenderView.t) (rv : RenderView.t) : Prop :=
  RenderView.projectionMatrix rv = Some (Legacy.RenderView.projectionMatrix old) /\
  RenderView.viewMatrix rv = Some (Legacy.RenderView.viewMatrix old) /\
  RenderView.viewport rv = Legacy.RenderView.viewport old.

(** The earlier controller and the pooled one hold the same session,
    graphics handle, frame of reference and renderer. *)
Definition same_session (old : Legacy.World) (w : World) : Prop :=
  Legacy.session (Legacy.this old) = session (this w) /\
  Legacy.gl (Legacy.this old) = gl (this w) /\
  Legacy.frameOfRef (Legacy.this old) = frameOfRef (this w) /\
  Legacy.renderer (Legacy.this old) = renderer (this w).

(** ** Byte sizes of formats ([formatbytesizes.ts])

    Of the [Context] the function reads objects of constants ([gl], [gl2],
    [gl2facade] and three extension objects) and three flags. A JavaScript
    object is a finite map from property names to values; reading a property
    that is absent yields [undefined], reading one of an object that is
    itself [undefined] throws. A [GLenum] is an integer. *)
Module FormatByteSizes.

Record Context := {
  gl : option (gmap string Z);
  gl2 : option (gmap string Z);
  gl2facade : option (gmap string Z);
  supportsDepthTexture : bool;
  depthTexture : option (gmap string Z);
  supportsSRGB : bool;
  sRGB : option (gmap string Z);
  supportsColorBufferFloat : bool;
  colorBufferFloat : option (gmap string Z)
}.

#[global] Instance Completion_ret : MRet Completion := fun A a => Normal a.

#[global] Instance Completion_bind : MBind Completion := fun A B f c =>
  match c with
  | Normal a => f a
  | Throw e => Throw e
  end.

(** [o.name]. *)
Definition prop (o : option (gmap string Z)) (name : string) : Completion (option Z) :=
  match o with
  | Some m => Normal (m !! name)
  | None => Throw TypeError
  end.

(** [supports ? o.name : undefined]. *)
Definition extension (supports : bool) (o : option (gmap string Z)) (name : string)
  : Completion (option Z) :=
  if supports then prop o name else Normal None.

(** The expressions that stand after [case]. *)
Inductive Label :=
| Undefined
| Gl (name : string)
| Gl2 (name : string)
| Gl2facade (name : string)
| Const (value : option Z).

Definition eval (context : Context) (l : Label) : Completion (option Z) :=
  match l with
  | Undefined => Normal None
  | Gl name => prop (gl context) name
  | Gl2 name => prop (gl2 context) name
  | Gl2facade name => prop (gl2facade context) name
  | Const value => Normal value
  end.

(** A [switch (format)]: the labels are evaluated in the order they are
    written and compared with [===] until one is the format; a label after
    the matching one is not evaluated. When none matches the [default]
    clause runs. *)
Fixpoint switch {B} (context : Context) (format : option Z)
    (cases : list (Label * B)) (default : B) : Completion B :=
  match cases with
  | [] => Normal default
  | (l, b) :: rest =>
      v ← eval context l;
      if decide (v = format) then Normal b else switch context format rest default
  end.

(** Where the first switch leaves: out of the switch, or at the assert for
    a type given instead of a format. *)
Inductive First := Break | IsType.

(** Where the second switch leaves: at a [return] of a size, at the assert
    for an unknown format, or at the assert for the depth formats. *)
Inductive Second := Size (bytes : Z) | Unknown | DependsOnRenderBuffer.

Definition types (UNSIGNED_INT_24_8_WEBGL : option Z) : list Label :=
  [Gl "UNSIGNED_BYTE"; Gl "UNSIGNED_SHORT_5_6_5"; Gl "UNSIGNED_SHORT_4_4_4_4";
   Gl "UNSIGNED_SHORT_5_5_5_1"; Gl "UNSIGNED_SHORT"; Gl "UNSIGNED_INT";
   Const UNSIGNED_INT_24_8_WEBGL; Gl "FLOAT"; Gl2facade "HALF_FLOAT"; Gl "BYTE";
   Gl "UNSIGNED_SHORT"; Gl "SHORT"; Gl "UNSIGNED_INT"; Gl "INT";
   Gl2 "HALF_FLOAT"; Gl "FLOAT"; Gl2 "UNSIGNED_INT_2_10_10_10_REV";
   Gl2 "UNSIGNED_INT_10F_11F_11F_REV"; Gl2 "UNSIGNED_INT_5_9_9_9_REV";
   Gl2 "UNSIGNED_INT_24_8"; Gl2 "FLOAT_32_UNSIGNED_INT_24_8_REV"].

Definition first_cases (UNSIGNED_INT_24_8_WEBGL : option Z) : list (Label * First) :=
  (Undefined, Break) :: ((fun l => (l, IsType)) <$> types UNSIGNED_INT_24_8_WEBGL).

(** The labels of the second switch before [case gl.DEPTH_STENCIL], those
    from it on that return a size, and the last two. *)
Definition sizes_to_3 (SRGB_EXT : option Z) : list (Label * Second) :=
  ((fun l => (l, Size 1)) <$>
     [Gl "ALPHA"; Gl "LUMINANCE"; Gl2 "R8"; Gl2 "R8I"; Gl2 "R8UI";
      Gl "STENCIL_INDEX8"]) ++
  ((fun l => (l, Size 2)) <$>
     [Gl "DEPTH_COMPONENT16"; Gl "LUMINANCE_ALPHA"; Gl2 "R16F"; Gl2 "R16I";
      Gl2 "R16UI"; Gl2 "RG8"; Gl2 "RG8I"; Gl2 "RG8UI"; Gl "RGB565";
      Gl "RGB5_A1"; Gl "RGBA4"]) ++
  ((fun l => (l, Size 3)) <$>
     [Gl2 "DEPTH_COMPONENT24"; Gl2 "RGB"; Gl2 "RGB8"; Gl2 "RGB8UI"; Gl2 "SRGB";
      Const SRGB_EXT; Gl2 "SRGB8"]).

Definition sizes_from_4 (SRGB8_ALPHA8_EXT SRGB_ALPHA_EXT RGB32F_EXT RGBA32F_EXT : option Z)
  : list (Label * Second) :=
  ((fun l => (l, Size 4)) <$>
     [Gl2 "DEPTH24_STENCIL8"; Gl2 "DEPTH_COMPONENT32F"; Gl2 "R11F_G11F_B10F";
      Gl2 "R32F"; Gl2 "R32I"; Gl2 "R32UI"; Gl2 "RG16F"; Gl2 "RG16I";
      Gl2 "RG16UI"; Gl2 "RGB10_A2"; Gl2 "RGB10_A2UI"; Gl2 "RGB9_E5"; Gl "RGBA";
      Gl2 "RGBA8"; Gl2 "RGBA8I"; Gl2 "RGBA8UI"; Gl2 "SRGB8_ALPHA8";
      Const SRGB8_ALPHA8_EXT; Gl "SRGB_ALPHA"; Const SRGB_ALPHA_EXT;
      Gl "SRGB_ALPHA8"; Gl "SRGB_APLHA8"]) ++
  [(Gl2 "DEPTH32F_STENCIL8", Size 5); (Gl2 "RGB16F", Size 6)] ++
  ((fun l => (l, Size 8)) <$>
     [Gl2 "RG32F"; Gl2 "RG32I"; Gl2 "RG32UI"; Gl2 "RGBA16F"; Gl2 "RGBA16I";
      Gl2 "RGBA16UI"]) ++
  ((fun l => (l, Size 12)) <$> [Gl2 "RGB32F"; Gl2 "RGB32F"; Const RGB32F_EXT]) ++
  ((fun l => (l, Size 16)) <$>
     [Gl2 "RGBA32F"; Const RGBA32F_EXT; Gl2 "RGBA32I"; Gl2 "RGBA32UI"]).

Definition second_cases
    (SRGB8_ALPHA8_EXT SRGB_EXT SRGB_ALPHA_EXT RGB32F_EXT RGBA32F_EXT : option Z)
  : list (Label * Second) :=
  (Undefined, Unknown) ::
  sizes_to_3 SRGB_EXT ++
  (Gl "DEPTH_STENCIL", Size 4) ::
  sizes_from_4 SRGB8_ALPHA8_EXT SRGB_ALPHA_EXT RGB32F_EXT RGBA32F_EXT ++
  [(Gl "DEPTH_COMPONENT", DependsOnRenderBuffer);
   (Gl "DEPTH_STENCIL", DependsOnRenderBuffer)].

(** [`${format}`] for a format that is [undefined] or an integer. *)
Definition show (format : option Z) : string :=
  match format with
  | None => "undefined"
  | Some z => pretty z
  end.

Definition depends_message : string :=
  "byte size of DEPTH_COMPONENT or DEPTH_STENCIL formats depends on active render buffer".

(** [byteSizeOfFormat] (lines 16-157). After a failed [assert] the
    [return 0] is not reached. *)
Definition byteSizeOfFormat (context : Context) (format : option Z) : Completion Z :=
  UNSIGNED_INT_24_8_WEBGL ←
    extension (supportsDepthTexture context) (depthTexture context)
      "UNSIGNED_INT_24_8_WEBGL";
  first ← switch context format (first_cases UNSIGNED_INT_24_8_WEBGL) Break;
  match first with
  | IsType =>
      assert false ("expected format instead of type " +:+ show format);;
      mret 0%Z
  | Break =>
      SRGB8_ALPHA8_EXT ←
        extension (supportsSRGB context) (sRGB context) "SRGB8_ALPHA8_EXT";
      SRGB_EXT ← extension (supportsSRGB context) (sRGB context) "SRGB_EXT";
      SRGB_ALPHA_EXT ←
        extension (supportsSRGB context) (sRGB context) "SRGB_ALPHA_EXT";
      RGB32F_EXT ←
        extension (supportsColorBufferFloat context) (colorBufferFloat context)
          "RGB32F_EXT";
      RGBA32F_EXT ←
        extension (supportsColorBufferFloat context) (colorBufferFloat context)
          "RGBA32F_EXT";
      second ←
        switch context format
          (second_cases SRGB8_ALPHA8_EXT SRGB_EXT SRGB_ALPHA_EXT RGB32F_EXT
             RGBA32F_EXT) Unknown;
      match second with
      | Size bytes => mret bytes
      | Unknown =>
          assert false ("size of format " +:+ show format +:+ " is unknown");;
          mret 0%Z
      | DependsOnRenderBuffer =>
          assert false depends_message;;
          mret 0%Z
      end
  end.

(** The sizes the function can return. *)
Definition sizes : list Z := [1; 2; 3; 4; 5; 6; 8; 12; 16]%Z.

(** The type enumerators of [gl] that stand in the first switch before any
    label that reads [gl2]. *)
Definition gl_types : list string :=
  ["UNSIGNED_BYTE"; "UNSIGNED_SHORT_5_6_5"; "UNSIGNED_SHORT_4_4_4_4";
   "UNSIGNED_SHORT_5_5_5_1"; "UNSIGNED_SHORT"; "UNSIGNED_INT"; "FLOAT"; "BYTE";
   "SHORT"; "INT"].

End FormatByteSizes.

(** A context for examples: a WebGL context without WebGL2 formats, with
    some of the constants of the WebGL specification, the half-float facade
    and no extension. *)
Module FormatMock.

Definition constants : gmap string Z :=
  list_to_map
    [("UNSIGNED_BYTE", 5121%Z); ("UNSIGNED_SHORT", 5123%Z); ("FLOAT", 5126%Z);
     ("ALPHA", 6406%Z); ("RGBA", 6408%Z); ("DEPTH_COMPONENT", 6402%Z);
     ("DEPTH_STENCIL", 34041%Z); ("RGBA4", 32854%Z)].

Definition context : FormatByteSizes.Context :=
  {| FormatByteSizes.gl := Some constants;
     FormatByteSizes.gl2 := Some constants;
     FormatByteSizes.gl2facade := Some (list_to_map [("HALF_FLOAT", 36193%Z)]);
     FormatByteSizes.supportsDepthTexture := false;
     FormatByteSizes.depthTexture := None;
     FormatByteSizes.supportsSRGB := false;
     FormatByteSizes.sRGB := None;
     FormatByteSizes.supportsColorBufferFloat := false;
     FormatByteSizes.colorBufferFloat := None |}.

End FormatMock.

(** Controllers of the earlier version for examples. *)
Module LegacyMock.

Definition invoked : Legacy.World :=
  {| Legacy.this :=
       {| Legacy.sessionCreationOptions := None;
          Legacy.contextAttributes := {| compatibleXRDevice := Some Mock.the_device |};
          Legacy.webGLLayerInit := None;
          Legacy.frameOfRefType := eye_level;
          Legacy.frameOfRefOptions := None;
          Legacy.device := Some Mock.the_device;
          Legacy.session := Some Mock.the_session;
          Legacy.gl := Some Mock.context;
          Legacy.frameOfRef := Some Mock.reference;
          Legacy.renderer := Some Mock.the_renderer |};
     Legacy.frameCallbacks := [] |}.

End LegacyMock.
(** ** Unfolding the monad *)

Ltac munfold :=
  unfold mbind, mret, M_bind, M_ret, get_this, emit, member, throw, settle,
    modify_this, new_RenderView, RenderView_set, requestAnimationFrame,
    addEndListener;
  cbn -[js_set js_get].

(** * Proofs *)

(** ** The monad and the arrays *)

Lemma bind_run {A B} (m : M A) (f : A -> M B) (w : World) :
  (m ≫= f) w =
  match result (m w) with
  | Normal a =>
      mkRun (result (f a (final (m w)))) (final (f a (final (m w))))
        (trace (m w) ++ trace (f a (final (m w))))
  | Throw e => mkRun (Throw e) (final (m w)) (trace (m w))
  end.
Proof.
  unfold mbind, M_bind. destruct (m w) as [[a|e] w1 t1]; cbn; [|done].
  by destruct (f a w1).
Qed.

Lemma js_get_Some (a : JsArray) (i : nat) (l : loc) :
  js_get a i = Some l <-> a !! i = Some (Some l).
Proof.
  unfold js_get. destruct (a !! i) as [[l'|]|]; simpl; split; congruence.
Qed.

Lemma js_set_length (a : JsArray) (i : nat) (v : loc) :
  length (js_set a i v) = max (length a) (S i).
Proof.
  unfold js_set. case_decide.
  - rewrite length_insert. lia.
  - rewrite !length_app, length_replicate. simpl. lia.
Qed.

Lemma js_set_lookup_eq (a : JsArray) (i : nat) (v : loc) :
  js_set a i v !! i = Some (Some v).
Proof.
  unfold js_set. case_decide.
  - by apply list_lookup_insert_eq.
  - rewrite lookup_app_r by lia.
    rewrite lookup_app_r by (rewrite length_replicate; lia).
    rewrite length_replicate.
    replace (i - length a - (i - length a)) with 0 by lia. done.
Qed.

Lemma js_set_lookup_lt (a : JsArray) (i j : nat) (v : loc) :
  j ≠ i -> j < length a -> js_set a i v !! j = a !! j.
Proof.
  intros Hne Hlt. unfold js_set. case_decide.
  - by apply list_lookup_insert_ne.
  - by rewrite lookup_app_l.
Qed.

Lemma js_set_lookup_Some (a : JsArray) (i j : nat) (v l : loc) :
  js_set a i v !! j = Some (Some l) -> (j = i /\ l = v) \/ (j ≠ i /\ a !! j = Some (Some l)).
Proof.
  intros H. destruct (decide (j = i)) as [->|Hne].
  - rewrite js_set_lookup_eq in H. left. split; congruence.
  - right. split; [done|].
    destruct (decide (j < length a)) as [Hlt|Hge].
    + by rewrite js_set_lookup_lt in H.
    + unfold js_set in H. case_decide.
      * rewrite list_lookup_insert_ne in H by done. done.
      * rewrite lookup_app_r in H by lia.
        destruct (decide (j - length a < i - length a)) as [Hin|Hout].
        -- rewrite lookup_app_l in H by (rewrite length_replicate; lia).
           apply lookup_replicate in H. destruct H; congruence.
        -- rewrite lookup_app_r in H by (rewrite length_replicate; lia).
           rewrite length_replicate in H.
           destruct (j - length a - (i - length a)) as [|k] eqn:E; [lia|].
           simpl in H. rewrite lookup_nil in H. congruence.
Qed.

Lemma js_get_set_eq (a : JsArray) (i : nat) (v : loc) :
  js_get (js_set a i v) i = Some v.
Proof. apply js_get_Some, js_set_lookup_eq. Qed.

Lemma set_renderViews_same (c : XRController) :
  set_renderViews (renderViews c) c = c.
Proof. by destruct c. Qed.

(** ** The loop over the views

    With the session at hand the loop never throws; each round is
    [step_pool] on the pool and the objects, the whole loop is [fill]. *)
Section Loop.

Context (pose : XRDevicePose) (s : XRSession).

Lemma onXRFrame_view_run (i : nat) (view : XRView) (w : World) :
  session (this w) = Some s ->
  onXRFrame_view pose i view w =
  match js_get (renderViews (this w)) i with
  | Some l =>
      mkRun (Normal tt)
        (with_pool (renderViews (this w))
           (<[l := view_record s pose view]> (heap w)) w)
        [EvGetViewMatrix view; EvGetViewport (session_id s) view;
         EvRenderViewSet l (view_record s pose view)]
  | None =>
      mkRun (Normal tt)
        (with_pool (js_set (renderViews (this w)) i (length (heap w)))
           (<[length (heap w) := view_record s pose view]>
              (heap w ++ [RenderView.new])) w)
        [EvRenderViewNew (length (heap w)); EvGetViewMatrix view;
         EvGetViewport (session_id s) view;
         EvRenderViewSet (length (heap w)) (view_record s pose view)]
  end.
Proof.
  intros Hs. unfold onXRFrame_view. munfold.
  destruct (js_get (renderViews (this w)) i) as [l|] eqn:Hget.
  - munfold. rewrite Hget. munfold. rewrite Hs. munfold.
    unfold with_pool. by rewrite set_renderViews_same.
  - munfold. rewrite js_get_set_eq. munfold.
    rewrite Hs. munfold. done.
Qed.

Lemma onXRFrame_view_step (i : nat) (view : XRView) (w : World) :
  session (this w) = Some s ->
  onXRFrame_view pose i view w =
  mkRun (Normal tt)
    (with_pool
       (step_pool (renderViews (this w)) (heap w) i (view_record s pose view)).1
       (step_pool (renderViews (this w)) (heap w) i (view_record s pose view)).2
       w)
    (step_trace s pose (renderViews (this w)) (heap w) i view).
Proof.
  intros Hs. rewrite (onXRFrame_view_run _ _ _ Hs).
  unfold step_pool, step_trace.
  by destruct (js_get (renderViews (this w)) i) as [l|].
Qed.

Lemma onXRFrame_views_fill (vs : list XRView) :
  forall (i : nat) (w : World),
    session (this w) = Some s ->
    onXRFrame_views pose i vs w =
    mkRun (Normal tt)
      (with_pool
         (fill (view_record s pose <$> vs) i (renderViews (this w)) (heap w)).1
         (fill (view_record s pose <$> vs) i (renderViews (this w)) (heap w)).2
         w)
      (fill_trace s pose vs i (renderViews (this w)) (heap w)).
Proof.
  induction vs as [|view rest IH]; intros i w Hs.
  - cbn. unfold with_pool. rewrite set_renderViews_same. by destruct w.
  - cbn [onXRFrame_views]. rewrite bind_run.
    rewrite (onXRFrame_view_step i view w Hs).
    cbn [result final trace]. rewrite (IH (S i)) by exact Hs.
    reflexivity.
Qed.

Lemma step_trace_view_events a hp i view :
  Forall (fun e => is_view_event e = true) (step_trace s pose a hp i view).
Proof. unfold step_trace. destruct (js_get a i); repeat constructor. Qed.

Lemma fill_trace_view_events vs : forall i a hp,
  Forall (fun e => is_view_event e = true) (fill_trace s pose vs i a hp).
Proof.
  induction vs as [|view rest IH]; intros i a hp; simpl; [constructor|].
  apply Forall_app. split; [apply step_trace_view_events|apply IH].
Qed.

End Loop.

Create HintDb frame.
#[global] Hint Resolve step_trace_view_events fill_trace_view_events : frame.

(** ** The pool under the loop *)

Lemma js_get_None_ok (a : JsArray) (i : nat) :
  (forall j, a !! j <> Some None) -> js_get a i = None -> length a <= i.
Proof.
  intros Hholes Hget. unfold js_get in Hget.
  destruct (a !! i) as [[l|]|] eqn:E; simpl in Hget.
  - congruence.
  - by destruct (Hholes i).
  - by apply lookup_ge_None.
Qed.

Lemma step_pool_length a hp i rv :
  length (step_pool a hp i rv).1 = max (length a) (S i).
Proof.
  unfold step_pool. destruct (js_get a i) as [l|] eqn:E; simpl.
  - apply js_get_Some, lookup_lt_Some in E. lia.
  - apply js_set_length.
Qed.

Lemma step_pool_keeps a hp i rv j l :
  a !! j = Some (Some l) -> (step_pool a hp i rv).1 !! j = Some (Some l).
Proof.
  intros Hj. unfold step_pool. destruct (js_get a i) as [l'|] eqn:E; simpl; [done|].
  rewrite js_set_lookup_lt; [done| |by eapply lookup_lt_Some].
  intros ->. apply js_get_Some in Hj. congruence.
Qed.

Lemma step_pool_heap_length a hp i rv :
  length hp <= length (step_pool a hp i rv).2.
Proof.
  unfold step_pool. destruct (js_get a i); simpl; rewrite length_insert.
  - done.
  - rewrite length_app. simpl. lia.
Qed.

Lemma step_pool_ok a hp i rv :
  pool_ok a hp -> i <= length a ->
  pool_ok (step_pool a hp i rv).1 (step_pool a hp i rv).2 /\
  deref (step_pool a hp i rv).2 (step_pool a hp i rv).1 i = Some rv /\
  (forall j l, j <> i -> a !! j = Some (Some l) ->
     (step_pool a hp i rv).2 !! l = hp !! l) /\
  length (step_pool a hp i rv).2 + length a =
    length hp + length (step_pool a hp i rv).1.
Proof.
  intros (Hholes & Hvalid & Hinj) Hi. unfold step_pool, deref.
  destruct (js_get a i) as [l|] eqn:E; simpl.
  - assert (Hl : a !! i = Some (Some l)) by by apply js_get_Some.
    repeat split.
    + done.
    + intros j l' Hj. rewrite length_insert. eauto.
    + done.
    + rewrite E. simpl. apply list_lookup_insert_eq. eauto.
    + intros j l' Hne Hj. apply list_lookup_insert_ne.
      intros ->. apply Hne. eauto.
    + rewrite length_insert. lia.
  - assert (Hlen : i = length a) by (apply js_get_None_ok in E; [lia|done]).
    subst i.
    assert (Hset : js_set a (length a) (length hp) = a ++ [Some (length hp)]).
    { unfold js_set. case_decide; [lia|]. by rewrite Nat.sub_diag. }
    rewrite Hset.
    assert (Hhp : <[length hp := rv]> (hp ++ [RenderView.new]) = hp ++ [rv]).
    { rewrite insert_app_r_alt by lia. by rewrite Nat.sub_diag. }
    rewrite Hhp. repeat split.
    + intros j Hj. apply lookup_app_Some in Hj as [Hj|[_ Hj]].
      * by destruct (Hholes j).
      * destruct (j - length a); simpl in Hj; [congruence|].
        by rewrite lookup_nil in Hj.
    + intros j l Hj. rewrite length_app. simpl.
      apply lookup_app_Some in Hj as [Hj|[_ Hj]].
      * apply Hvalid in Hj. lia.
      * destruct (j - length a); simpl in Hj; [|by rewrite lookup_nil in Hj].
        injection Hj as <-. lia.
    + intros j1 j2 l H1 H2.
      apply lookup_app_Some in H1 as [H1|[Hge1 H1]];
        apply lookup_app_Some in H2 as [H2|[Hge2 H2]].
      * eauto.
      * destruct (j2 - length a) eqn:E2; simpl in H2; [|by rewrite lookup_nil in H2].
        injection H2 as <-. apply Hvalid in H1. lia.
      * destruct (j1 - length a) eqn:E1; simpl in H1; [|by rewrite lookup_nil in H1].
        injection H1 as <-. apply Hvalid in H2. lia.
      * destruct (j1 - length a) eqn:E1; simpl in H1; [|by rewrite lookup_nil in H1].
        destruct (j2 - length a) eqn:E2; simpl in H2; [|by rewrite lookup_nil in H2].
        lia.
    + unfold js_get. rewrite lookup_app_r by lia. rewrite Nat.sub_diag. simpl.
      rewrite lookup_app_r by lia. by rewrite Nat.sub_diag.
    + intros j l Hne Hj. apply Hvalid in Hj. by rewrite lookup_app_l.
    + rewrite !length_app. simpl. lia.
Qed.

Lemma fill_length rvs : forall i a hp,
  i <= length a ->
  length (fill rvs i a hp).1 = max (length a) (i + length rvs).
Proof.
  induction rvs as [|rv rest IH]; intros i a hp Hi; simpl.
  - lia.
  - rewrite IH; rewrite step_pool_length; lia.
Qed.

Lemma fill_keeps rvs : forall i a hp j l,
  a !! j = Some (Some l) -> (fill rvs i a hp).1 !! j = Some (Some l).
Proof.
  induction rvs as [|rv rest IH]; intros i a hp j l Hj; simpl; [done|].
  by apply IH, step_pool_keeps.
Qed.

Lemma fill_heap_length rvs : forall i a hp,
  length hp <= length (fill rvs i a hp).2.
Proof.
  induction rvs as [|rv rest IH]; intros i a hp; simpl; [done|].
  etransitivity; [apply (step_pool_heap_length a hp i rv)|apply IH].
Qed.

Lemma fill_ok rvs : forall i a hp,
  pool_ok a hp -> i <= length a ->
  pool_ok (fill rvs i a hp).1 (fill rvs i a hp).2 /\
  (forall k rv, rvs !! k = Some rv ->
     deref (fill rvs i a hp).2 (fill rvs i a hp).1 (i + k) = Some rv) /\
  (forall j l, j < i \/ i + length rvs <= j -> a !! j = Some (Some l) ->
     (fill rvs i a hp).2 !! l = hp !! l) /\
  length (fill rvs i a hp).2 + length a = length hp + length (fill rvs i a hp).1.
Proof.
  induction rvs as [|rv rest IH]; intros i a hp Hok Hi; simpl.
  - split; [done|]. split; [|split; [done|lia]].
    intros k rv Hk. by rewrite lookup_nil in Hk.
  - destruct (step_pool_ok a hp i rv Hok Hi) as (Hok1 & Hd1 & Hst1 & Hal1).
    pose proof (step_pool_length a hp i rv) as Hlen1.
    destruct (IH (S i) _ _ Hok1 ltac:(lia)) as (Hok2 & Hd2 & Hst2 & Hal2).
    split; [done|]. split; [|split].
    + intros [|k] rv' Hk; simpl in Hk.
      * injection Hk as <-. rewrite Nat.add_0_r.
        unfold deref in Hd1 |- *.
        destruct (js_get (step_pool a hp i rv).1 i) as [l|] eqn:E; [|done].
        simpl in Hd1. apply js_get_Some in E.
        pose proof (fill_keeps rest (S i) _ (step_pool a hp i rv).2 _ _ E) as E'.
        apply js_get_Some in E'. rewrite E'. simpl.
        rewrite (Hst2 i l); [done|lia|done].
      * replace (i + S k) with (S i + k) by lia. by apply Hd2.
    + intros j l Hj Hl.
      rewrite (Hst2 j l); [|lia|by apply step_pool_keeps].
      apply (Hst1 j l); [lia|done].
    + lia.
Qed.

(** ** The four ways [onXRFrame] runs *)

Lemma onXRFrame_no_session (time : number) (frame : XRFrame) (w : World) :
  session (this w) = None ->
  onXRFrame time frame w = mkRun (Throw TypeError) w [].
Proof. intros Hs. unfold onXRFrame. munfold. rewrite Hs. munfold. by destruct w. Qed.

Lemma onXRFrame_no_pose (time : number) (frame : XRFrame) (w : World)
    (s : XRSession) :
  session (this w) = Some s ->
  getDevicePose frame (frameOfRef (this w)) = None ->
  onXRFrame time frame w =
  mkRun (Normal tt) (with_callback s w)
    [EvRequestAnimationFrame (session_id s) onXRFrameCallback;
     EvGetDevicePose (frameOfRef (this w)) false;
     EvConsoleWarn "no pose - this is not handled yet."].
Proof.
  intros Hs Hp. unfold onXRFrame. munfold. rewrite Hs. munfold.
  rewrite Hp. munfold. reflexivity.
Qed.

Lemma onXRFrame_no_gl (time : number) (frame : XRFrame) (w : World)
    (s : XRSession) (pose : XRDevicePose) :
  session (this w) = Some s ->
  getDevicePose frame (frameOfRef (this w)) = Some pose ->
  gl (this w) = None ->
  onXRFrame time frame w =
  mkRun (Throw TypeError) (with_callback s w)
    [EvRequestAnimationFrame (session_id s) onXRFrameCallback;
     EvGetDevicePose (frameOfRef (this w)) true].
Proof.
  intros Hs Hp Hg. unfold onXRFrame. munfold. rewrite Hs. munfold.
  rewrite Hp. munfold. rewrite Hg. munfold. reflexivity.
Qed.

Lemma onXRFrame_posed (time : number) (frame : XRFrame) (w : World)
    (s : XRSession) (pose : XRDevicePose) (g : GL) :
  session (this w) = Some s ->
  getDevicePose frame (frameOfRef (this w)) = Some pose ->
  gl (this w) = Some g ->
  onXRFrame time frame w =
  mkRun
    (match renderer (this w) with
     | Some _ => Normal tt
     | None => Throw TypeError
     end)
    (with_pool (filled s pose frame w).1 (filled s pose frame w).2
       (with_callback s w))
    ([EvRequestAnimationFrame (session_id s) onXRFrameCallback;
      EvGetDevicePose (frameOfRef (this w)) true;
      EvBindFramebuffer g (FRAMEBUFFER g) (framebuffer (baseLayer s))]
     ++ filled_trace s pose frame w ++
     match renderer (this w) with
     | Some r => [EvRendererFrame r 0%Z (filled s pose frame w).1]
     | None => []
     end).
Proof.
  intros Hs Hp Hg.
  pose proof (onXRFrame_views_fill pose s (views frame) 0 (with_callback s w) Hs)
    as Hrun.
  unfold onXRFrame. munfold. rewrite Hs. munfold. rewrite Hp. munfold.
  rewrite Hg. munfold. rewrite Hs. munfold.
  unfold with_callback in Hrun. cbn [this heap] in Hrun. rewrite Hrun.
  munfold. unfold filled, filled_trace.
  destruct (renderer (this w)) as [r|]; munfold.
  - reflexivity.
  - by rewrite ?app_nil_r.
Qed.

(** ** The run of [onXRFrame], by cases *)

Lemma onXRFrame_frame_run (time : number) (frame : XRFrame) (w : World) :
  frame_run frame w (onXRFrame time frame w).
Proof.
  destruct (session (this w)) as [s|] eqn:Hs.
  - destruct (getDevicePose frame (frameOfRef (this w))) as [pose|] eqn:Hp.
    + destruct (gl (this w)) as [g|] eqn:Hg.
      * rewrite (onXRFrame_posed time frame w s pose g Hs Hp Hg).
        by apply run_posed.
      * rewrite (onXRFrame_no_gl time frame w s pose Hs Hp Hg).
        by eapply run_no_gl.
    + rewrite (onXRFrame_no_pose time frame w s Hs Hp). by apply run_no_pose.
  - rewrite (onXRFrame_no_session time frame w Hs). by apply run_no_session.
Qed.

(** Case analysis on the run of [onXRFrame time frame w]; the cases bring
    [s], [pose], [g] and the hypotheses [Hs], [Hp], [Hg]. *)
Ltac frame_cases time frame w :=
  destruct (onXRFrame_frame_run time frame w)
    as [Hs|s Hs Hp|s pose Hs Hp Hg|s pose g Hs Hp Hg];
  cbn [result final trace] in *.

Lemma submissions_app (l1 l2 : list Event) :
  submissions (l1 ++ l2) = submissions l1 ++ submissions l2.
Proof. apply omap_app. Qed.

Lemma submissions_view_events (tr : list Event) :
  Forall (fun e => is_view_event e = true) tr -> submissions tr = [].
Proof.
  induction 1 as [|e tr He _ IH]; [done|].
  destruct e; try discriminate He; exact IH.
Qed.

Lemma registrations_view_events (tr : list Event) :
  Forall (fun e => is_view_event e = true) tr ->
  Forall (fun e => is_registration e = false) tr.
Proof.
  intros H. eapply Forall_impl; [exact H|]. intros e He. by destruct e.
Qed.

Lemma submissions_filled_trace s pose frame w :
  submissions (filled_trace s pose frame w) = [].
Proof. apply submissions_view_events. unfold filled_trace. auto with frame. Qed.

(** A pose-less event is not among the calls of the loop over the views. *)
Lemma view_events_not_pose (tr : list Event) cs b :
  Forall (fun e => is_view_event e = true) tr -> ~ In (EvGetDevicePose cs b) tr.
Proof.
  intros Hall Hin. rewrite Forall_forall in Hall.
  apply list_elem_of_In, Hall in Hin. discriminate Hin.
Qed.

(** ** What a frame leaves alone *)

Lemma onXRFrame_this (time : number) (frame : XRFrame) (w : World) :
  this (final (onXRFrame time frame w)) =
  set_renderViews (renderViews (this (final (onXRFrame time frame w)))) (this w).
Proof.
  destruct (onXRFrame_frame_run time frame w); cbn [result final trace];
    try (cbn; by rewrite set_renderViews_same); reflexivity.
Qed.

Lemma onXRFrame_endListeners (time : number) (frame : XRFrame) (w : World) :
  endListeners (final (onXRFrame time frame w)) = endListeners w.
Proof. by destruct (onXRFrame_frame_run time frame w). Qed.

(** ** Teardown *)

Lemma onEndSession_run (w : World) :
  onEndSession w = mkRun (Normal tt) (with_this (torn_down (this w)) w) [].
Proof. reflexivity. Qed.

Lemma torn_down_cleared (c : XRController) : cleared (torn_down c).
Proof. by repeat split. Qed.

Lemma torn_down_idempotent (c : XRController) :
  torn_down (torn_down c) = torn_down c.
Proof. reflexivity. Qed.

Lemma torn_down_of_cleared (c : XRController) : cleared c -> torn_down c = c.
Proof.
  intros (Hs & Hc & Hg & Hf). destruct c; simpl in *. by subst.
Qed.

Lemma dispatch_end_run (sid : nat) (listeners : list nat) : forall w,
  dispatch_end sid listeners w =
  mkRun (Normal tt)
    (if bool_decide (sid ∈ listeners) then with_this (torn_down (this w)) w else w)
    [].
Proof.
  induction listeners as [|l rest IH]; intros w.
  - cbn. by destruct w.
  - cbn [dispatch_end]. rewrite bind_run.
    destruct (decide (l = sid)) as [->|Hne].
    + rewrite onEndSession_run. cbn [result final trace]. rewrite IH.
      rewrite (bool_decide_eq_true_2 (sid ∈ sid :: rest)) by apply list_elem_of_here.
      by destruct (bool_decide (sid ∈ rest)).
    + cbn [result final trace mret M_ret]. rewrite IH.
      destruct (bool_decide (sid ∈ rest)) eqn:E.
      * apply bool_decide_eq_true_1 in E.
        by rewrite (bool_decide_eq_true_2 (sid ∈ l :: rest))
          by by apply list_elem_of_further.
      * apply bool_decide_eq_false_1 in E.
        rewrite (bool_decide_eq_false_2 (sid ∈ l :: rest)); [done|].
        intros [?|?]%elem_of_cons; congruence.
Qed.

Lemma endSession_no_session (w : World) :
  session (this w) = None -> endSession w = mkRun (Throw TypeError) w [].
Proof. intros Hs. unfold endSession. munfold. rewrite Hs. munfold. by destruct w. Qed.

Lemma endSession_run (w : World) (s : XRSession) :
  session (this w) = Some s ->
  endSession w =
  mkRun (end_ s)
    (if fires_end s && bool_decide (session_id s ∈ endListeners w)
     then with_this (torn_down (this w)) w else w)
    [EvSessionEnd (session_id s)].
Proof.
  intros Hs. unfold endSession. munfold. rewrite Hs. munfold.
  destruct (fires_end s); munfold.
  - rewrite dispatch_end_run.
    destruct (end_ s) as [[]|e]; munfold;
      by destruct (bool_decide (session_id s ∈ endListeners w)).
  - destruct (end_ s) as [[]|e]; munfold; by destruct w.
Qed.

(** ** The support query *)

Lemma supportsSession_run (w : World) (d : XRDevice) :
  device (this w) = Some d ->
  supportsSession w =
  mkRun (Normal (fulfilled (device_supportsSession d (sessionCreationOptions (this w)))))
    w [EvSupportsSession (sessionCreationOptions (this w))].
Proof.
  intros Hd. unfold supportsSession, try_catch. munfold. rewrite Hd. munfold.
  rewrite Hd. munfold.
  destruct (device_supportsSession d (sessionCreationOptions (this w))) as [[]|e];
    munfold; by destruct w.
Qed.

Lemma supportsSession_uninitialized (w : World) :
  device (this w) = None ->
  supportsSession w = mkRun (Throw (EvalError "this.device not initialized")) w [].
Proof.
  intros Hd. unfold supportsSession, try_catch. munfold. rewrite Hd. munfold.
  by destruct w.
Qed.

Lemma initialize_block (nav : Navigator) (w : World) :
  _block (this (final (initialize nav w))) = _block (this w).
Proof.
  unfold initialize, supportsXR, assert. munfold.
  destruct (xr nav) as [entry|]; munfold; [|done].
  by destruct (requestDevice entry).
Qed.

(** ** The block flag under the calls of a client *)

Lemma call_block (c : Call) (w : World) :
  _block (this (call c w)) =
  match c with
  | CBlock => true
  | CUnblock => false
  | _ => _block (this w)
  end.
Proof.
  destruct c; cbn [call]; try reflexivity.
  - by rewrite onXRFrame_this.
  - destruct (session (this w)) as [s|] eqn:Hs.
    + rewrite (endSession_run w s Hs). cbn [final].
      by destruct (fires_end s && bool_decide (session_id s ∈ endListeners w)).
    + by rewrite (endSession_no_session w Hs).
  - destruct (device (this w)) as [d|] eqn:Hd.
    + by rewrite (supportsSession_run w d Hd).
    + by rewrite (supportsSession_uninitialized w Hd).
  - apply initialize_block.
Qed.

Lemma calls_block (cs : list Call) : forall w,
  _block (this (calls cs w)) = last_block cs (_block (this w)).
Proof.
  induction cs as [|c rest IH]; intros w; [done|].
  unfold calls in *. cbn [foldl]. rewrite IH, call_block. by destruct c.
Qed.

(** ** The pool across a frame *)

Lemma pool_ok_constructor (sessionOpts : option XRSessionCreationOptions) :
  pool_ok (renderViews (this (constructor sessionOpts)))
    (heap (constructor sessionOpts)).
Proof.
  cbn. repeat split.
  - intros [|i] H; simpl in H; [congruence|by rewrite lookup_nil in H].
  - intros [|i] l H; simpl in H; [injection H as <-; simpl; lia|].
    by rewrite lookup_nil in H.
  - intros [|i] [|j] l Hi Hj; simpl in *; try done;
      by rewrite lookup_nil in *.
Qed.

Lemma onXRFrame_pool_length (time : number) (frame : XRFrame) (w : World) :
  length (renderViews (this w)) <=
  length (renderViews (this (final (onXRFrame time frame w)))).
Proof.
  frame_cases time frame w; try done.
  cbn. unfold filled. rewrite fill_length by lia. lia.
Qed.

Lemma onXRFrame_pool_keeps (time : number) (frame : XRFrame) (w : World) j l :
  renderViews (this w) !! j = Some (Some l) ->
  renderViews (this (final (onXRFrame time frame w))) !! j = Some (Some l).
Proof.
  intros Hj.
  frame_cases time frame w; try done.
  cbn. unfold filled. by apply fill_keeps.
Qed.

Lemma onXRFrame_heap_length (time : number) (frame : XRFrame) (w : World) :
  length (heap w) <= length (heap (final (onXRFrame time frame w))).
Proof.
  frame_cases time frame w; try done.
  cbn. unfold filled. apply fill_heap_length.
Qed.

Lemma onXRFrame_pool_ok (time : number) (frame : XRFrame) (w : World) :
  pool_ok (renderViews (this w)) (heap w) ->
  pool_ok (renderViews (this (final (onXRFrame time frame w))))
    (heap (final (onXRFrame time frame w))) /\
  length (heap (final (onXRFrame time frame w))) + length (renderViews (this w)) =
  length (heap w) + length (renderViews (this (final (onXRFrame time frame w)))).
Proof.
  intros Hok.
  frame_cases time frame w;
    cbn [this heap with_callback with_pool set_renderViews renderViews];
    try (split; [done|lia]).
  unfold filled.
  destruct (fill_ok (view_record s pose <$> views frame) 0
              (renderViews (this w)) (heap w) Hok ltac:(lia)) as (H1 & _ & _ & H4).
  done.
Qed.

(** What a frame whose pose resolves hands to the renderer: the whole pool,
    as long as the longer of the old pool and the views; its first slots
    hold the records of this frame's views, in the order of the views, and
    every slot beyond them refers to the object it referred to before, with
    the content it had. *)
Lemma onXRFrame_submits_pool (time : number) (frame : XRFrame) (w : World)
    (s : XRSession) (pose : XRDevicePose) (g : GL) (rd : Renderer) :
  session (this w) = Some s ->
  getDevicePose frame (frameOfRef (this w)) = Some pose ->
  gl (this w) = Some g ->
  renderer (this w) = Some rd ->
  pool_ok (renderViews (this w)) (heap w) ->
  let w' := final (onXRFrame time frame w) in
  result (onXRFrame time frame w) = Normal tt /\
  submissions (trace (onXRFrame time frame w)) = [(0%Z, renderViews (this w'))] /\
  length (renderViews (this w')) =
    max (length (renderViews (this w))) (length (views frame)) /\
  (forall k view, views frame !! k = Some view ->
     deref (heap w') (renderViews (this w')) k = Some (view_record s pose view)) /\
  (forall j, length (views frame) <= j -> j < length (renderViews (this w)) ->
     js_get (renderViews (this w')) j = js_get (renderViews (this w)) j /\
     deref (heap w') (renderViews (this w')) j =
       deref (heap w) (renderViews (this w)) j).
Proof.
  intros Hs Hp Hg Hr Hok w'. subst w'.
  rewrite (onXRFrame_posed time frame w s pose g Hs Hp Hg), Hr.
  cbn [result final trace]. cbn [this heap with_pool set_renderViews renderViews].
  unfold filled.
  destruct (fill_ok (view_record s pose <$> views frame) 0
              (renderViews (this w)) (heap w) Hok ltac:(lia))
    as (H1 & H2 & H3 & H4).
  split; [done|]. split.
  { rewrite !submissions_app, submissions_filled_trace. reflexivity. }
  split.
  { rewrite fill_length by lia. by rewrite length_fmap. }
  split.
  { intros k view Hk. apply (H2 k). by rewrite list_lookup_fmap, Hk. }
  intros j Hge Hlt.
  destruct (renderViews (this w) !! j) as [[l|]|] eqn:E.
  - pose proof (fill_keeps (view_record s pose <$> views frame) 0 _ (heap w) _ _ E)
      as E'.
    assert (Hget : js_get (renderViews (this w)) j = Some l) by by apply js_get_Some.
    assert (Hget' : js_get (fill (view_record s pose <$> views frame) 0
                       (renderViews (this w)) (heap w)).1 j = Some l)
      by by apply js_get_Some.
    split; [congruence|]. unfold deref. rewrite Hget, Hget'. simpl.
    apply (H3 j l); [|done]. right. rewrite length_fmap. lia.
  - destruct Hok as (Hholes & _). by destruct (Hholes j).
  - apply lookup_ge_None in E. lia.
Qed.

(** Without slots left over from an earlier frame the submitted array is
    the slice of this frame's views. *)
Lemma submits_exact_slice_without_stale (time : number) (frame : XRFrame)
    (w : World) :
  length (renderViews (this w)) <= length (views frame) ->
  submits_exact_slice time frame w.
Proof.
  intros Hlen t a.
  frame_cases time frame w; try (intros []).
  rewrite !submissions_app, submissions_filled_trace.
  cbn [this with_pool set_renderViews renderViews].
  destruct (renderer (this w)); simpl; [|intros []].
  intros [Heq|[]]. injection Heq as <- <-.
  rewrite take_ge; [done|]. unfold filled.
  rewrite fill_length by lia. rewrite length_fmap. lia.
Qed.

(** ** The render loop *)

Lemma deliver_one (time : number) (frame : XRFrame) (w : World) sid :
  frameCallbacks w = [(sid, onXRFrameCallback)] ->
  deliver time frame w =
  (final (onXRFrame time frame (take_callbacks w)),
   trace (onXRFrame time frame (take_callbacks w)) ++ []).
Proof. intros Hcb. unfold deliver. by rewrite Hcb. Qed.

(** With one callback pending for the controller's session, one is pending
    again after a frame was delivered, whatever the frame. *)
Lemma render_loop_continues (time : number) (frame : XRFrame) (w : World)
    (s : XRSession) :
  session (this w) = Some s ->
  frameCallbacks w = [(session_id s, onXRFrameCallback)] ->
  session (this (deliver time frame w).1) = Some s /\
  frameCallbacks (deliver time frame w).1 = [(session_id s, onXRFrameCallback)].
Proof.
  intros Hs Hcb. rewrite (deliver_one time frame w _ Hcb). cbn [fst].
  rewrite onXRFrame_this. split; [exact Hs|].
  assert (Hs' : session (this (take_callbacks w)) = Some s) by exact Hs.
  destruct (onXRFrame_frame_run time frame (take_callbacks w))
    as [Hn|s' Hs'' Hp|s' pose Hs'' Hp Hg|s' pose g Hs'' Hp Hg];
    cbn [result final trace]; try congruence;
    assert (s' = s) as -> by congruence; reflexivity.
Qed.

(** While no pose is available, delivering frames leaves the world as it
    is and never reaches the renderer. *)
Lemma frames_without_pose (fs : list (number * XRFrame)) (w : World)
    (s : XRSession) :
  session (this w) = Some s ->
  frameCallbacks w = [(session_id s, onXRFrameCallback)] ->
  Forall (fun tf => getDevicePose tf.2 (frameOfRef (this w)) = None) fs ->
  (frames fs w).1 = w /\ submissions (frames fs w).2 = [].
Proof.
  intros Hs Hcb Hall. induction Hall as [|[time frame] rest Hp _ IH]; [done|].
  cbn [frames]. rewrite (deliver_one time frame w _ Hcb).
  assert (Hs' : session (this (take_callbacks w)) = Some s) by exact Hs.
  rewrite (onXRFrame_no_pose time frame (take_callbacks w) s Hs' Hp).
  cbn [result final trace].
  assert (Hw : with_callback s (take_callbacks w) = w).
  { unfold with_callback, take_callbacks. cbn. rewrite <- Hcb. by destruct w. }
  rewrite Hw. destruct (frames rest w) as [w2 t2] eqn:E. cbn [fst snd] in *.
  destruct IH as [-> Hsub]. split; [done|].
  rewrite !submissions_app, Hsub. reflexivity.
Qed.

(** Along any sequence of delivered frames the pool does not shrink and
    every entry stays where it is. *)
Lemma run_callbacks_pool (cbs : list (nat * Callback)) (time : number)
    (frame : XRFrame) : forall w,
  length (renderViews (this w)) <=
    length (renderViews (this (run_callbacks cbs time frame w).1)) /\
  (forall j l, renderViews (this w) !! j = Some (Some l) ->
     renderViews (this (run_callbacks cbs time frame w).1) !! j = Some (Some l)).
Proof.
  induction cbs as [|[sid []] rest IH]; intros w; [done|].
  cbn [run_callbacks].
  destruct (run_callbacks rest time frame (final (onXRFrame time frame w)))
    as [w' tr] eqn:E.
  destruct (IH (final (onXRFrame time frame w))) as [Hlen Hkeep].
  rewrite E in Hlen, Hkeep. cbn [fst] in *. split.
  - etransitivity; [apply (onXRFrame_pool_length time frame w)|exact Hlen].
  - intros j l Hj. by apply Hkeep, onXRFrame_pool_keeps.
Qed.

Lemma frames_pool (fs : list (number * XRFrame)) : forall w,
  length (renderViews (this w)) <= length (renderViews (this (frames fs w).1)) /\
  (forall j l, renderViews (this w) !! j = Some (Some l) ->
     renderViews (this (frames fs w).1) !! j = Some (Some l)).
Proof.
  induction fs as [|[time frame] rest IH]; intros w; [done|].
  cbn [frames]. destruct (deliver time frame w) as [w1 t1] eqn:E1.
  destruct (frames rest w1) as [w2 t2] eqn:E2. cbn [fst].
  destruct (run_callbacks_pool (frameCallbacks w) time frame (take_callbacks w))
    as [Hlen1 Hkeep1].
  unfold deliver in E1. rewrite E1 in Hlen1, Hkeep1. cbn [fst] in *.
  destruct (IH w1) as [Hlen2 Hkeep2]. rewrite E2 in Hlen2, Hkeep2. cbn [fst] in *.
  split.
  - etransitivity; [exact Hlen1|exact Hlen2].
  - intros j l Hj. by apply Hkeep2, Hkeep1.
Qed.

(** The mock session as [requestSession] leaves it. *)
Lemma mock_session_is_active :
  result (requestSession Mock.page Mock.ready) = Normal tt /\
  session (this Mock.active) = Some Mock.the_session /\
  gl (this Mock.active) = Some Mock.context /\
  frameOfRef (this Mock.active) = Some Mock.reference /\
  renderer (this Mock.active) = Some Mock.the_renderer /\
  frameCallbacks Mock.active = [(1, onXRFrameCallback)] /\
  endListeners Mock.active = [1] /\
  renderViews (this Mock.active) = [Some 0].
Proof. repeat split. Qed.

(** ** The control surface as a canvas uses it *)

Lemma set_surface_same (c : XRController) :
  set_renderer (renderer c) (set__block (_block c) c) = c.
Proof. by destruct c. Qed.

Lemma surface_calls_run (cs : list Call) : forall w,
  forallb surface_call cs = true ->
  calls cs w = with_this (after_surface cs (this w)) w.
Proof.
  induction cs as [|c rest IH]; intros w Hcs.
  - cbn. unfold after_surface, with_this. cbn [last_renderer last_block].
    rewrite set_surface_same. by destruct w.
  - simpl in Hcs. apply andb_prop in Hcs as [Hc Hrest].
    unfold calls in *. cbn [foldl]. rewrite (IH _ Hrest).
    destruct c; try discriminate Hc; reflexivity.
Qed.

(** ** The runs of [requestSession] *)

Lemma requestSession_no_device (page : Page) (w : World) :
  device (this w) = None ->
  requestSession page w = mkRun (Throw TypeError) w [].
Proof.
  intros Hd. unfold requestSession. munfold. rewrite Hd. munfold. by destruct w.
Qed.

Lemma requestSession_rejected (page : Page) (w : World) (d : XRDevice) (e : JsError) :
  device (this w) = Some d ->
  device_requestSession d (sessionCreationOptions (this w)) = Throw e ->
  requestSession page w =
  mkRun (Throw e) w [EvRequestSession (sessionCreationOptions (this w))].
Proof.
  intros Hd Hr. unfold requestSession. munfold. rewrite Hd. munfold.
  rewrite Hr. munfold. by destruct w.
Qed.

Lemma requestSession_run (page : Page) (cv : Canvas) (cs : list Call)
    (w : World) (d : XRDevice) (s : XRSession) :
  canvas_via_surface page cv cs ->
  device (this w) = Some d ->
  device_requestSession d (sessionCreationOptions (this w)) = Normal s ->
  requestSession page w =
  match requestFrameOfReference s (frameOfRefType (this w))
          (frameOfRefOptions (this w)) with
  | Normal f =>
      mkRun (Normal tt) (session_started page s cv cs f w)
        [EvRequestSession (sessionCreationOptions (this w));
         EvCreateCanvas (contextAttributes (this w));
         EvNewXRWebGLLayer (session_id s) (context_gl cv) (webGLLayerInit (this w));
         EvRequestFrameOfReference (session_id s) (frameOfRefType (this w))
           (frameOfRefOptions (this w));
         EvRequestAnimationFrame (session_id s) onXRFrameCallback;
         EvAddEndListener (session_id s)]
  | Throw e =>
      mkRun (Throw e) (with_this (with_session page s cv cs (this w)) w)
        [EvRequestSession (sessionCreationOptions (this w));
         EvCreateCanvas (contextAttributes (this w));
         EvNewXRWebGLLayer (session_id s) (context_gl cv) (webGLLayerInit (this w));
         EvRequestFrameOfReference (session_id s) (frameOfRefType (this w))
           (frameOfRefOptions (this w))]
  end.
Proof.
  intros [Hcs Hcv] Hd Hr. unfold requestSession. munfold. rewrite Hd. munfold.
  rewrite Hr. munfold. rewrite Hcv, (surface_calls_run cs _ Hcs). munfold.
  destruct (requestFrameOfReference s (frameOfRefType (this w))
              (frameOfRefOptions (this w))) as [f|e]; munfold; reflexivity.
Qed.

(** * The properties of the specification *)

(** C1 (the code departs from it). The specification: when the pose resolves
    and the frame has N views, the array handed to the renderer is exactly the slice
    [0, N) of the pool. Here the host delivers a stereo frame and then a
    frame with one view. For the second frame the callback hands over the
    pool of two slots: slot 0 holds the record of the frame's one view,
    slot 1 still refers to the right-eye record of the frame before. *)
Theorem stale_slot_is_submitted :
  length (views Mock.mono_frame) = 1 /\
  result (onXRFrame 33%Z Mock.mono_frame Mock.invoked_again) = Normal tt /\
  submissions (trace (onXRFrame 33%Z Mock.mono_frame Mock.invoked_again)) =
    [(0%Z, [Some 0; Some 1])] /\
  deref (heap (final (onXRFrame 33%Z Mock.mono_frame Mock.invoked_again)))
    [Some 0; Some 1] 0 =
    Some (view_record Mock.the_session Mock.later_pose Mock.left_view) /\
  deref (heap (final (onXRFrame 33%Z Mock.mono_frame Mock.invoked_again)))
    [Some 0; Some 1] 1 =
    Some (view_record Mock.the_session Mock.the_pose Mock.right_view) /\
  ~ submits_exact_slice 33%Z Mock.mono_frame Mock.invoked_again.
Proof.
  repeat split; try (vm_compute; reflexivity).
  intros H. specialize (H 0%Z [Some 0; Some 1]).
  assert (Hin : In (0%Z, [Some 0; Some 1])
                  (submissions
                     (trace (onXRFrame 33%Z Mock.mono_frame Mock.invoked_again))))
    by (vm_compute; tauto).
  apply H in Hin. vm_compute in Hin. discriminate Hin.
Qed.

(** C2, as stated, fails: on the controller whose session has ended,
    [endSession] is not a no-op, the promise it returns is rejected. *)
Lemma endSession_on_ended_rejects :
  session (this Mock.ended) = None /\
  result (endSession Mock.ended) = Throw TypeError /\
  ~ endSession_is_noop Mock.ended.
Proof.
  split; [reflexivity|]. split; [reflexivity|].
  intros [H _]. vm_compute in H. discriminate H.
Qed.

(** C2, amended. On a controller without a session [endSession] changes
    nothing and is rejected with a [TypeError]. The teardown itself,
    [onEndSession], never throws, makes no call, reaches the cleared state
    from every state, and is idempotent: run again, or on a controller that
    is already cleared, it changes nothing. The device-driven end never
    throws; it reaches the cleared state when the controller's listener is
    on the session and changes nothing when it is not. On a controller with
    a session [endSession] settles as the session's [end()] does; it reaches
    the cleared state when the host fires the end event and the listener is
    on the session, and otherwise changes nothing, so that the session stays
    on the controller: that is the case after a [requestSession] that was
    rejected at the frame of reference, which stores the session and does
    not get to adding the listener. *)
Theorem teardown_is_idempotent :
  (forall w, session (this w) = None ->
     endSession w = mkRun (Throw TypeError) w []) /\
  (forall w,
     result (onEndSession w) = Normal tt /\
     trace (onEndSession w) = [] /\
     cleared (this (final (onEndSession w))) /\
     final (onEndSession (final (onEndSession w))) = final (onEndSession w)) /\
  (forall w, cleared (this w) -> final (onEndSession w) = w) /\
  (forall sid w,
     result (device_end sid w) = Normal tt /\
     (In sid (endListeners w) -> cleared (this (final (device_end sid w)))) /\
     (~ In sid (endListeners w) -> final (device_end sid w) = w)) /\
  (forall w s, session (this w) = Some s ->
     result (endSession w) = end_ s /\
     (fires_end s = true -> In (session_id s) (endListeners w) ->
      cleared (this (final (endSession w)))) /\
     (fires_end s = false \/ ~ In (session_id s) (endListeners w) ->
      final (endSession w) = w /\ ~ cleared (this (final (endSession w))))) /\
  (forall page cv cs w d s e,
     canvas_via_surface page cv cs ->
     device (this w) = Some d ->
     device_requestSession d (sessionCreationOptions (this w)) = Normal s ->
     requestFrameOfReference s (frameOfRefType (this w)) (frameOfRefOptions (this w)) =
       Throw e ->
     ~ In (session_id s) (endListeners w) ->
     let w' := final (requestSession page w) in
     is_Some (session (this w')) /\
     result (endSession w') = end_ s /\
     final (endSession w') = w').
Proof.
  split; [exact endSession_no_session|].
  split.
  { intros w. rewrite !onEndSession_run. cbn [result final trace].
    repeat split; reflexivity. }
  split.
  { intros w Hc. rewrite onEndSession_run. cbn [final]. unfold with_this.
    rewrite (torn_down_of_cleared _ Hc). by destruct w. }
  split.
  { intros sid w. unfold device_end. rewrite dispatch_end_run.
    cbn [result final]. split; [done|]. split; intros Hin.
    - rewrite bool_decide_eq_true_2 by by apply list_elem_of_In.
      apply torn_down_cleared.
    - by rewrite bool_decide_eq_false_2 by by rewrite list_elem_of_In. }
  assert (Hend : forall w s, session (this w) = Some s ->
            result (endSession w) = end_ s /\
            (fires_end s = true -> In (session_id s) (endListeners w) ->
             cleared (this (final (endSession w)))) /\
            (fires_end s = false \/ ~ In (session_id s) (endListeners w) ->
             final (endSession w) = w /\ ~ cleared (this (final (endSession w))))).
  { intros w s Hs. rewrite (endSession_run w s Hs). cbn [result final].
    split; [done|]. split.
    - intros -> Hin.
      rewrite bool_decide_eq_true_2 by by apply list_elem_of_In.
      apply torn_down_cleared.
    - intros Hno.
      assert (Hb : fires_end s && bool_decide (session_id s ∈ endListeners w) = false).
      { destruct Hno as [->|Hno]; [done|].
        rewrite bool_decide_eq_false_2 by by rewrite list_elem_of_In.
        apply andb_false_r. }
      rewrite Hb. split; [done|]. intros [Hc _]. congruence. }
  split; [exact Hend|].
  intros page cv cs w d s e Hcv Hd Hr Hf Hno w'. subst w'.
  rewrite (requestSession_run page cv cs w d s Hcv Hd Hr), Hf. cbn [final].
  set (w' := with_this (with_session page s cv cs (this w)) w).
  destruct (Hend w' (layered page s cv (this w))) as (Hres & _ & Hkeep);
    [reflexivity|].
  split; [by eexists|]. split; [exact Hres|].
  apply Hkeep. right. exact Hno.
Qed.

Lemma teardown_is_idempotent_witness :
  session (this Mock.ended) = None /\
  endSession Mock.ended = mkRun (Throw TypeError) Mock.ended [] /\
  result (endSession Mock.active) = Normal tt /\
  cleared (this (final (endSession Mock.active))) /\
  is_Some (session (this Mock.half_started)) /\
  result (endSession Mock.half_started) = Normal tt /\
  final (endSession Mock.half_started) = Mock.half_started.
Proof.
  destruct teardown_is_idempotent as (H1 & _ & _ & _ & H5 & H6).
  split; [reflexivity|]. split; [apply H1; reflexivity|].
  destruct (H5 Mock.active Mock.the_session) as (Hr & Hc & _); [reflexivity|].
  split; [exact Hr|]. split; [apply Hc; [reflexivity|]; vm_compute; tauto|].
  apply (H6 Mock.page {| canvas_id := 3; context_gl := Some Mock.context |} []
           (final (initialize {| xr := Some {| requestDevice := Normal Mock.lost_device |} |}
                     (constructor None)))
           Mock.lost_device Mock.lost_session (DOMException "NotSupportedError"));
    [split; reflexivity|reflexivity|reflexivity|reflexivity|].
  vm_compute. tauto.
Defined.




(** C4, as stated, fails: a frame for which the device reports two views but
    no pose leaves the pool with its one entry. *)
Lemma pool_shorter_than_views :
  length (views Mock.lost_frame) = 2 /\
  length (renderViews (this (final (onXRFrame 16%Z Mock.lost_frame Mock.invoked)))) = 1 /\
  ~ pool_covers_views 16%Z Mock.lost_frame Mock.invoked.
Proof.
  split; [reflexivity|]. split; [reflexivity|].
  unfold pool_covers_views. vm_compute. lia.
Qed.

(** C4, amended. In every per-frame invocation, and so along every sequence
    of delivered frames, the pool does not shrink and every entry stays
    where it is, referring to the same object; objects are never dropped.
    When the pose resolves (with session and graphics handle at hand) the
    pool afterwards is as long as the longer of the old pool and the
    frame's views, hence at least as long as the views. For a pool without
    holes or shared objects, as the constructor makes it, that stays so,
    the slot of each view holds the record written for it, and as many
    objects are created as slots are added: an existing entry is written
    where it is, not allocated anew. *)
Theorem pool_grows_in_place :
  (forall (time : number) (frame : XRFrame) (w : World),
     length (renderViews (this w)) <=
       length (renderViews (this (final (onXRFrame time frame w)))) /\
     (forall j l, renderViews (this w) !! j = Some (Some l) ->
        renderViews (this (final (onXRFrame time frame w))) !! j = Some (Some l)) /\
     length (heap w) <= length (heap (final (onXRFrame time frame w)))) /\
  (forall (fs : list (number * XRFrame)) (w : World),
     length (renderViews (this w)) <= length (renderViews (this (frames fs w).1)) /\
     (forall j l, renderViews (this w) !! j = Some (Some l) ->
        renderViews (this (frames fs w).1) !! j = Some (Some l))) /\
  (forall (time : number) (frame : XRFrame) (w : World) s pose g,
     session (this w) = Some s ->
     getDevicePose frame (frameOfRef (this w)) = Some pose ->
     gl (this w) = Some g ->
     length (renderViews (this (final (onXRFrame time frame w)))) =
       max (length (renderViews (this w))) (length (views frame)) /\
     pool_covers_views time frame w /\
     (pool_ok (renderViews (this w)) (heap w) ->
      forall k view, views frame !! k = Some view ->
        deref (heap (final (onXRFrame time frame w)))
          (renderViews (this (final (onXRFrame time frame w)))) k =
        Some (view_record s pose view))) /\
  (forall (time : number) (frame : XRFrame) (w : World),
     pool_ok (renderViews (this w)) (heap w) ->
     pool_ok (renderViews (this (final (onXRFrame time frame w))))
       (heap (final (onXRFrame time frame w))) /\
     length (heap (final (onXRFrame time frame w))) + length (renderViews (this w)) =
     length (heap w) + length (renderViews (this (final (onXRFrame time frame w))))).
Proof.
  split.
  { intros time frame w. split; [apply onXRFrame_pool_length|].
    split; [intros j l; apply onXRFrame_pool_keeps|apply onXRFrame_heap_length]. }
  split; [intros fs w; apply frames_pool|].
  split; [|exact onXRFrame_pool_ok].
  intros time frame w s pose g Hs Hp Hg. unfold pool_covers_views.
  rewrite (onXRFrame_posed time frame w s pose g Hs Hp Hg).
  cbn [result final trace this heap with_pool set_renderViews renderViews].
  unfold filled.
  assert (Hlen : length (fill (view_record s pose <$> views frame) 0
                           (renderViews (this w)) (heap w)).1 =
                 max (length (renderViews (this w))) (length (views frame))).
  { rewrite fill_length by lia. by rewrite length_fmap. }
  split; [exact Hlen|]. split; [lia|].
  intros Hok k view Hk.
  destruct (fill_ok (view_record s pose <$> views frame) 0
              (renderViews (this w)) (heap w) Hok ltac:(lia)) as (_ & H2 & _).
  apply (H2 k). by rewrite list_lookup_fmap, Hk.
Qed.

Lemma pool_grows_in_place_witness :
  length (renderViews (this Mock.invoked)) = 1 /\
  length (renderViews (this (final (onXRFrame 16%Z Mock.stereo_frame Mock.invoked)))) = 2 /\
  pool_covers_views 16%Z Mock.stereo_frame Mock.invoked /\
  renderViews (this (final (onXRFrame 16%Z Mock.stereo_frame Mock.invoked))) !! 0 =
    Some (Some 0) /\
  length (heap (final (onXRFrame 16%Z Mock.stereo_frame Mock.invoked))) = 2.
Proof.
  destruct pool_grows_in_place as (Hone & _ & Hposed & Hok).
  destruct (Hone 16%Z Mock.stereo_frame Mock.invoked) as (_ & Hkeep & _).
  destruct (Hposed 16%Z Mock.stereo_frame Mock.invoked
              Mock.the_session Mock.the_pose Mock.context)
    as (Hlen & Hcov & _); try reflexivity.
  destruct (Hok 16%Z Mock.stereo_frame Mock.invoked) as [_ Halloc];
    [apply (pool_ok_constructor None)|].
  split; [reflexivity|]. split; [rewrite Hlen; reflexivity|].
  split; [exact Hcov|]. split; [apply Hkeep; reflexivity|].
  rewrite Hlen in Halloc. apply (Nat.add_cancel_r _ _ 1). exact Halloc.
Defined.

(** C5. In an invocation of the per-frame callback in which pose resolution
    fails ([getDevicePose] returned [null]), the callback returns normally,
    the renderer's [frame] is not called, no [RenderView] is created or
    written, no field of the controller and no pooled object changes, a
    warning is logged, and the only effect is the callback registered for
    the next frame, which will query the pose afresh. So, delivered to a
    running session, any sequence of frames without a pose leaves the world
    as it is and never reaches the renderer. *)
Theorem pose_failure_skips_frame :
  (forall (time : number) (frame : XRFrame) (w : World),
     (exists cs, In (EvGetDevicePose cs false) (trace (onXRFrame time frame w))) ->
     result (onXRFrame time frame w) = Normal tt /\
     submissions (trace (onXRFrame time frame w)) = [] /\
     Forall (fun e => is_view_event e = false) (trace (onXRFrame time frame w)) /\
     this (final (onXRFrame time frame w)) = this w /\
     heap (final (onXRFrame time frame w)) = heap w /\
     In (EvConsoleWarn "no pose - this is not handled yet.")
        (trace (onXRFrame time frame w)) /\
     exists s, session (this w) = Some s /\
               final (onXRFrame time frame w) = with_callback s w) /\
  (forall (fs : list (number * XRFrame)) (w : World) (s : XRSession),
     session (this w) = Some s ->
     frameCallbacks w = [(session_id s, onXRFrameCallback)] ->
     Forall (fun tf => getDevicePose tf.2 (frameOfRef (this w)) = None) fs ->
     (frames fs w).1 = w /\ submissions (frames fs w).2 = []).
Proof.
  split; [|exact frames_without_pose].
  intros time frame w [cs Hin].
  frame_cases time frame w.
  - destruct Hin.
  - repeat split; try done.
    + repeat constructor.
    + simpl. tauto.
    + by exists s.
  - simpl in Hin. destruct Hin as [Hin|[Hin|[]]]; discriminate Hin.
  - exfalso. simpl in Hin. destruct Hin as [Hin|[Hin|[Hin|Hin]]]; try discriminate Hin.
    apply in_app_or in Hin as [Hin|Hin].
    + revert Hin. apply view_events_not_pose. unfold filled_trace. auto with frame.
    + destruct (renderer (this w)); simpl in Hin; [|done].
      destruct Hin as [Hin|[]]. discriminate Hin.
Qed.

Lemma pose_failure_skips_frame_witness :
  In (EvGetDevicePose (Some Mock.reference) false)
     (trace (onXRFrame 16%Z Mock.lost_frame Mock.invoked)) /\
  result (onXRFrame 16%Z Mock.lost_frame Mock.invoked) = Normal tt /\
  submissions (trace (onXRFrame 16%Z Mock.lost_frame Mock.invoked)) = [] /\
  this (final (onXRFrame 16%Z Mock.lost_frame Mock.invoked)) = this Mock.invoked /\
  (frames [(16%Z, Mock.lost_frame); (33%Z, Mock.lost_frame)] Mock.active).1 =
    Mock.active.
Proof.
  assert (Hin : In (EvGetDevicePose (Some Mock.reference) false)
                  (trace (onXRFrame 16%Z Mock.lost_frame Mock.invoked)))
    by (vm_compute; tauto).
  split; [exact Hin|].
  destruct pose_failure_skips_frame as [Hone Hseq].
  destruct (Hone 16%Z Mock.lost_frame Mock.invoked)
    as (Hr & Hsub & _ & Hthis & _); [by exists (Some Mock.reference)|].
  split; [exact Hr|]. split; [exact Hsub|]. split; [exact Hthis|].
  apply (Hseq _ Mock.active Mock.the_session); [reflexivity|reflexivity|].
  repeat constructor.
Defined.

(** C6. In every invocation of the per-frame callback nothing is done before
    the callback is registered for the next frame: the registration heads
    the trace, ahead of the pose query, of every [RenderView] built or
    written and of the renderer's [frame]. With a session at hand it is made
    exactly once and is pending afterwards whatever the rest of the frame
    does. So the loop stays scheduled: with one callback pending for the
    running session, one is pending again after any frame the host
    delivers, with or without output. *)
Theorem reregistration_is_first_action :
  (forall (time : number) (frame : XRFrame) (w : World) e,
     head (trace (onXRFrame time frame w)) = Some e ->
     is_registration e = true) /\
  (forall (time : number) (frame : XRFrame) (w : World) s,
     session (this w) = Some s ->
     exists rest,
       trace (onXRFrame time frame w) =
         EvRequestAnimationFrame (session_id s) onXRFrameCallback :: rest /\
       Forall (fun e => is_registration e = false) rest /\
       frameCallbacks (final (onXRFrame time frame w)) =
         frameCallbacks w ++ [(session_id s, onXRFrameCallback)]) /\
  (forall (time : number) (frame : XRFrame) (w : World) s,
     session (this w) = Some s ->
     frameCallbacks w = [(session_id s, onXRFrameCallback)] ->
     session (this (deliver time frame w).1) = Some s /\
     frameCallbacks (deliver time frame w).1 =
       [(session_id s, onXRFrameCallback)]).
Proof.
  split; [|split; [|exact render_loop_continues]].
  - intros time frame w e.
    frame_cases time frame w; intros He;
      [discriminate He|injection He as <-; done..].
  - intros time frame w s' Hs'.
    frame_cases time frame w; [congruence|..];
      assert (s' = s) as -> by congruence;
      (eexists; split; [reflexivity|]; split; [|done]).
    + repeat constructor.
    + repeat constructor.
    + repeat (apply Forall_cons; split; [done|]).
      apply Forall_app. split.
      * apply registrations_view_events. unfold filled_trace. auto with frame.
      * destruct (renderer (this w)); repeat constructor.
Qed.

Lemma reregistration_is_first_action_witness :
  session (this Mock.invoked) = Some Mock.the_session /\
  (exists rest,
     trace (onXRFrame 16%Z Mock.lost_frame Mock.invoked) =
       EvRequestAnimationFrame 1 onXRFrameCallback :: rest /\
     Forall (fun e => is_registration e = false) rest /\
     frameCallbacks (final (onXRFrame 16%Z Mock.lost_frame Mock.invoked)) =
       [(1, onXRFrameCallback)]) /\
  frameCallbacks (deliver 16%Z Mock.lost_frame Mock.active).1 =
    [(1, onXRFrameCallback)].
Proof.
  destruct reregistration_is_first_action as (_ & Hone & Hloop).
  split; [reflexivity|]. split.
  - apply (Hone 16%Z Mock.lost_frame Mock.invoked Mock.the_session).
    reflexivity.
  - apply (Hloop 16%Z Mock.lost_frame Mock.active Mock.the_session);
      reflexivity.
Defined.

(** C7. On an initialized controller (the device handle is set)
    [supportsSession] never throws: it asks the device once, returns [true]
    when the device's query is fulfilled and [false] when the device rejects
    it, and leaves the controller as it is. *)
Theorem supportsSession_never_throws (w : World) (d : XRDevice) :
  device (this w) = Some d ->
  result (supportsSession w) =
    Normal (fulfilled (device_supportsSession d (sessionCreationOptions (this w)))) /\
  final (supportsSession w) = w /\
  trace (supportsSession w) = [EvSupportsSession (sessionCreationOptions (this w))].
Proof. intros Hd. by rewrite (supportsSession_run w d Hd). Qed.

Lemma supportsSession_never_throws_witness :
  device (this Mock.ready_immersive) = Some Mock.the_device /\
  result (supportsSession Mock.ready_immersive) = Normal false.
Proof.
  split; [reflexivity|].
  destruct (supportsSession_never_throws Mock.ready_immersive Mock.the_device)
    as (Hr & _); [reflexivity|].
  rewrite Hr. reflexivity.
Defined.

(** C8. [blocked] tells the most recent of [block()] and [unblock()]:
    [false] on a new controller, [true] after [block()], [false] after
    [unblock()] and so after [block()] then [unblock()] from any state; and
    after any sequence of calls of the controller's methods it is what the
    last [block()] or [unblock()] in the sequence set, or what it was before
    when there is none. *)
Theorem blocked_reflects_last_call :
  (forall sessionOpts, result (blocked (constructor sessionOpts)) = Normal false) /\
  (forall w, result (blocked (final (block w))) = Normal true) /\
  (forall w, result (blocked (final (unblock w))) = Normal false) /\
  (forall w, result (blocked (final (unblock (final (block w))))) = Normal false) /\
  (forall w, final (blocked w) = w /\ trace (blocked w) = []) /\
  (forall cs w,
     result (blocked (calls cs w)) = Normal (last_block cs (_block (this w)))).
Proof.
  split; [reflexivity|]. split; [reflexivity|]. split; [reflexivity|].
  split; [reflexivity|]. split.
  - intros w. split; [by destruct w|reflexivity].
  - intros cs w. rewrite <- calls_block. reflexivity.
Qed.

(** C9. Whenever the per-frame callback calls the renderer's [frame], the
    elapsed time it passes is the constant [0], whatever [time] the callback
    was given; and a frame whose pose resolves, with session, graphics
    handle and renderer at hand, makes exactly one such call. *)
Theorem sink_elapsed_time_is_zero (time : number) (frame : XRFrame) (w : World) :
  Forall (fun p => p.1 = 0%Z) (submissions (trace (onXRFrame time frame w))) /\
  (forall s pose g rd,
     session (this w) = Some s ->
     getDevicePose frame (frameOfRef (this w)) = Some pose ->
     gl (this w) = Some g ->
     renderer (this w) = Some rd ->
     exists a, submissions (trace (onXRFrame time frame w)) = [(0%Z, a)]).
Proof.
  frame_cases time frame w.
  - split; [constructor|]. congruence.
  - split; [constructor|]. congruence.
  - split; [constructor|]. congruence.
  - assert (Hsub : submissions
        ([EvRequestAnimationFrame (session_id s) onXRFrameCallback;
          EvGetDevicePose (frameOfRef (this w)) true;
          EvBindFramebuffer g (FRAMEBUFFER g) (framebuffer (baseLayer s))]
         ++ filled_trace s pose frame w ++
         match renderer (this w) with
         | Some r => [EvRendererFrame r 0%Z (filled s pose frame w).1]
         | None => []
         end) =
        match renderer (this w) with
        | Some r => [(0%Z, (filled s pose frame w).1)]
        | None => []
        end).
    { rewrite !submissions_app, submissions_filled_trace.
      by destruct (renderer (this w)). }
    rewrite Hsub. split.
    + destruct (renderer (this w)); repeat constructor.
    + intros s' pose' g' rd _ _ _ Hr. rewrite Hr. by eexists.
Qed.

Lemma sink_elapsed_time_is_zero_witness :
  exists a, submissions (trace (onXRFrame 16%Z Mock.stereo_frame Mock.invoked)) =
            [(0%Z, a)].
Proof.
  apply (proj2 (sink_elapsed_time_is_zero 16%Z Mock.stereo_frame Mock.invoked)
           Mock.the_session Mock.the_pose Mock.context Mock.the_renderer);
    vm_compute; reflexivity.
Defined.

(** C10. The per-frame callback does not look at the block flag: run in two
    worlds that differ only in [_block], it completes the same way, makes
    the same calls in the same order (the same registration, the same
    [RenderView]s, the same call of the renderer's [frame] or none), and
    leaves worlds that again differ only in [_block]; the flag itself is
    left as it was. *)
Theorem onXRFrame_ignores_block (time : number) (frame : XRFrame) (w : World)
    (b : bool) :
  onXRFrame time frame (with_block b w) =
    mkRun (result (onXRFrame time frame w))
      (with_block b (final (onXRFrame time frame w)))
      (trace (onXRFrame time frame w)) /\
  _block (this (final (onXRFrame time frame w))) = _block (this w).
Proof.
  destruct (session (this w)) as [s|] eqn:Hs.
  - destruct (getDevicePose frame (frameOfRef (this w))) as [pose|] eqn:Hp.
    + destruct (gl (this w)) as [g|] eqn:Hg.
      * rewrite (onXRFrame_posed time frame w s pose g Hs Hp Hg).
        rewrite (onXRFrame_posed time frame (with_block b w) s pose g Hs Hp Hg).
        done.
      * rewrite (onXRFrame_no_gl time frame w s pose Hs Hp Hg).
        rewrite (onXRFrame_no_gl time frame (with_block b w) s pose Hs Hp Hg).
        done.
    + rewrite (onXRFrame_no_pose time frame w s Hs Hp).
      rewrite (onXRFrame_no_pose time frame (with_block b w) s Hs Hp).
      done.
  - rewrite (onXRFrame_no_session time frame w Hs).
    rewrite (onXRFrame_no_session time frame (with_block b w) Hs).
    done.
Qed.

(** * Further properties of the controller *)

(** ** Acquiring the device *)

Lemma initialize_run (nav : Navigator) (w : World) :
  initialize nav w =
  match xr nav with
  | None => mkRun (Throw (EvalError "WebXR not supported by browser")) w []
  | Some entry =>
      match requestDevice entry with
      | Throw e => mkRun (Throw e) w [EvRequestDevice]
      | Normal d =>
          mkRun (Normal tt)
            (with_this
               (set_contextAttributes {| compatibleXRDevice := Some d |}
                  (set_device (Some d) (this w))) w)
            [EvRequestDevice]
      end
  end.
Proof.
  unfold initialize, supportsXR, assert. munfold.
  destruct (xr nav) as [entry|]; munfold; [|by destruct w].
  destruct (requestDevice entry) as [d|e]; munfold; [reflexivity|by destruct w].
Qed.

(** X1. [initialize] that fails changes nothing: without an XR entry point
    it throws before any call to the host; when the host rejects the device
    request it propagates that error; in both cases, and so whenever it does
    not complete normally, the controller is exactly as before (the device
    field is not touched). *)
Theorem initialize_failure_is_atomic (nav : Navigator) (w : World) :
  (xr nav = None -> exists e, initialize nav w = mkRun (Throw e) w []) /\
  (forall entry e, xr nav = Some entry -> requestDevice entry = Throw e ->
     initialize nav w = mkRun (Throw e) w [EvRequestDevice]) /\
  (result (initialize nav w) <> Normal tt -> final (initialize nav w) = w).
Proof.
  rewrite initialize_run. split; [|split].
  - intros ->. by eexists.
  - intros entry e -> ->. reflexivity.
  - destruct (xr nav) as [entry|]; [|done].
    destruct (requestDevice entry); [|done]. intros H. by destruct H.
Qed.

Lemma initialize_failure_is_atomic_witness :
  initialize {| xr := None |} (constructor None) =
    mkRun (Throw (EvalError "WebXR not supported by browser")) (constructor None) [] /\
  final (initialize {| xr := Some {| requestDevice := Throw (DOMException "NotFoundError") |} |}
           (constructor None)) = constructor None.
Proof.
  split; [reflexivity|].
  apply (initialize_failure_is_atomic
           {| xr := Some {| requestDevice := Throw (DOMException "NotFoundError") |} |}
           (constructor None)).
  vm_compute. discriminate.
Defined.

(** X2. When the host hands out a device, [initialize] stores it as the
    device handle and as [compatibleXRDevice] of the context attributes and
    changes nothing else; from then on [supportsSession] answers from that
    device without throwing. *)
Theorem initialize_enables_support_query (nav : Navigator) (w : World)
    (entry : XR) (d : XRDevice) :
  xr nav = Some entry ->
  requestDevice entry = Normal d ->
  result (initialize nav w) = Normal tt /\
  device (this (final (initialize nav w))) = Some d /\
  compatibleXRDevice (contextAttributes (this (final (initialize nav w)))) = Some d /\
  final (initialize nav w) =
    with_this (set_contextAttributes {| compatibleXRDevice := Some d |}
                 (set_device (Some d) (this w))) w /\
  result (supportsSession (final (initialize nav w))) =
    Normal (fulfilled (device_supportsSession d (sessionCreationOptions (this w)))).
Proof.
  intros Hx Hd. rewrite initialize_run, Hx, Hd. cbn [result final].
  repeat split.
  by rewrite (supportsSession_run _ d).
Qed.

Lemma initialize_enables_support_query_witness :
  result (initialize Mock.navigator (constructor (Some Mock.immersive_options))) =
    Normal tt /\
  result (supportsSession
            (final (initialize Mock.navigator
                      (constructor (Some Mock.immersive_options))))) =
    Normal false.
Proof.
  destruct (initialize_enables_support_query Mock.navigator
              (constructor (Some Mock.immersive_options))
              {| requestDevice := Normal Mock.the_device |} Mock.the_device)
    as (Hr & _ & _ & _ & Hq); [reflexivity|reflexivity|].
  split; [exact Hr|]. rewrite Hq. reflexivity.
Defined.

(** X3. Before a device is acquired neither query reaches the host:
    [supportsSession] and [requestSession] both throw, make no call and
    leave the controller as it is. *)
Theorem uninitialized_controller_refuses (page : Page) (w : World) :
  device (this w) = None ->
  (exists e, supportsSession w = mkRun (Throw e) w []) /\
  requestSession page w = mkRun (Throw TypeError) w [].
Proof.
  intros Hd. split.
  - eexists. by apply supportsSession_uninitialized.
  - by apply requestSession_no_device.
Qed.

Lemma uninitialized_controller_refuses_witness :
  requestSession Mock.page (constructor None) =
    mkRun (Throw TypeError) (constructor None) [].
Proof.
  apply (uninitialized_controller_refuses Mock.page (constructor None)).
  reflexivity.
Defined.

(** ** Requesting a session *)

(** X4. When the device rejects the session request, [requestSession]
    rejects with the device's error and is atomic: the device was asked, and
    nothing else happened: no canvas, no layer, no frame of reference, no
    callback, no listener, and the world is as before. *)
Theorem requestSession_rejection_is_atomic (page : Page) (w : World)
    (d : XRDevice) (e : JsError) :
  device (this w) = Some d ->
  device_requestSession d (sessionCreationOptions (this w)) = Throw e ->
  result (requestSession page w) = Throw e /\
  final (requestSession page w) = w /\
  trace (requestSession page w) =
    [EvRequestSession (sessionCreationOptions (this w))].
Proof. intros Hd Hr. by rewrite (requestSession_rejected page w d e Hd Hr). Qed.

Lemma requestSession_rejection_is_atomic_witness :
  let busy := {| device_supportsSession := fun _ => Normal tt;
                 device_requestSession := fun _ =>
                   Throw (DOMException "InvalidStateError") |} in
  let w := final (initialize {| xr := Some {| requestDevice := Normal busy |} |}
                    (constructor None)) in
  result (requestSession Mock.page w) = Throw (DOMException "InvalidStateError") /\
  final (requestSession Mock.page w) = w.
Proof.
  intros busy w.
  destruct (requestSession_rejection_is_atomic Mock.page w busy
              (DOMException "InvalidStateError")) as (Hr & Hf & _);
    [reflexivity|reflexivity|].
  exact (conj Hr Hf).
Defined.

(** X5. A successful [requestSession] starts the render loop. For a page
    whose canvas uses the controller only through its control surface, a
    device that grants the session and a session that resolves the frame of
    reference: the controller holds the session with the layer built for
    the canvas's context as its base layer, the canvas, its context and the
    frame of reference; the device, the pool and the pooled objects are as
    before; exactly one callback is added to the pending ones and the end
    listener is on the session. With a context and a renderer at hand and no
    callback pending before, the controller is running. *)
Theorem requestSession_starts_session (page : Page) (cv : Canvas)
    (cs : list Call) (w : World) (d : XRDevice) (s : XRSession)
    (f : XRFrameOfReference) :
  canvas_via_surface page cv cs ->
  device (this w) = Some d ->
  device_requestSession d (sessionCreationOptions (this w)) = Normal s ->
  requestFrameOfReference s (frameOfRefType (this w)) (frameOfRefOptions (this w)) =
    Normal f ->
  let w' := final (requestSession page w) in
  result (requestSession page w) = Normal tt /\
  session (this w') = Some (layered page s cv (this w)) /\
  baseLayer (layered page s cv (this w)) =
    new_XRWebGLLayer page s (context_gl cv) (webGLLayerInit (this w)) /\
  canvas (this w') = Some cv /\
  gl (this w') = context_gl cv /\
  frameOfRef (this w') = Some f /\
  device (this w') = Some d /\
  renderViews (this w') = renderViews (this w) /\
  heap w' = heap w /\
  frameCallbacks w' = frameCallbacks w ++ [(session_id s, onXRFrameCallback)] /\
  endListeners w' = endListeners w ++ [session_id s] /\
  (is_Some (context_gl cv) ->
   is_Some (last_renderer cs (renderer (this w))) ->
   frameCallbacks w = [] ->
   running (layered page s cv (this w)) w').
Proof.
  intros Hcv Hd Hr Hf w'. subst w'.
  rewrite (requestSession_run page cv cs w d s Hcv Hd Hr), Hf.
  cbn [result final].
  do 11 (split; [first [reflexivity|exact Hd]|]).
  intros Hg Hrd Hcb. unfold running, session_started.
  cbn [this frameCallbacks with_session set_frameOfRef set_session set_gl
       set_canvas after_surface set_renderer set__block session gl renderer].
  rewrite Hcb. done.
Qed.

Lemma requestSession_starts_session_witness :
  result (requestSession Mock.page Mock.ready) = Normal tt /\
  gl (this Mock.active) = Some Mock.context /\
  running (layered Mock.page Mock.the_session
             {| canvas_id := 3; context_gl := Some Mock.context |} (this Mock.ready))
    Mock.active.
Proof.
  destruct (requestSession_starts_session Mock.page
              {| canvas_id := 3; context_gl := Some Mock.context |} []
              Mock.ready Mock.the_device Mock.the_session Mock.reference)
    as (Hr & _ & _ & _ & Hg & _ & _ & _ & _ & _ & _ & Hrun);
    [split; reflexivity|reflexivity|reflexivity|reflexivity|].
  split; [exact Hr|]. split; [exact Hg|].
  apply Hrun; [by eexists|by eexists|reflexivity].
Defined.

(** X6. When the session is granted but the frame of reference is rejected,
    [requestSession] rejects with that error and is not atomic: the session
    (with its layer), the canvas and the graphics handle stay on the
    controller, while the frame of reference is as before, no callback is
    registered and no end listener is on the session. *)
Theorem requestSession_keeps_session_on_late_failure (page : Page) (cv : Canvas)
    (cs : list Call) (w : World) (d : XRDevice) (s : XRSession) (e : JsError) :
  canvas_via_surface page cv cs ->
  device (this w) = Some d ->
  device_requestSession d (sessionCreationOptions (this w)) = Normal s ->
  requestFrameOfReference s (frameOfRefType (this w)) (frameOfRefOptions (this w)) =
    Throw e ->
  let w' := final (requestSession page w) in
  result (requestSession page w) = Throw e /\
  session (this w') = Some (layered page s cv (this w)) /\
  canvas (this w') = Some cv /\
  gl (this w') = context_gl cv /\
  frameOfRef (this w') = frameOfRef (this w) /\
  frameCallbacks w' = frameCallbacks w /\
  endListeners w' = endListeners w /\
  Forall (fun ev => is_registration ev = false) (trace (requestSession page w)).
Proof.
  intros Hcv Hd Hr Hf w'. subst w'.
  rewrite (requestSession_run page cv cs w d s Hcv Hd Hr), Hf.
  cbn [result final trace]. repeat split; try done.
  repeat constructor.
Qed.

Lemma requestSession_keeps_session_on_late_failure_witness :
  let lost := {| session_id := 2; baseLayer := Mock.layer;
                 requestFrameOfReference := fun _ _ =>
                   Throw (DOMException "NotSupportedError");
                 end_ := Normal tt; fires_end := true |} in
  let dev := {| device_supportsSession := fun _ => Normal tt;
                device_requestSession := fun _ => Normal lost |} in
  let w := final (initialize {| xr := Some {| requestDevice := Normal dev |} |}
                    (constructor None)) in
  result (requestSession Mock.page w) = Throw (DOMException "NotSupportedError") /\
  is_Some (session (this (final (requestSession Mock.page w)))) /\
  frameCallbacks (final (requestSession Mock.page w)) = [].
Proof.
  intros lost dev w.
  destruct (requestSession_keeps_session_on_late_failure Mock.page
              {| canvas_id := 3; context_gl := Some Mock.context |} []
              w dev lost (DOMException "NotSupportedError"))
    as (Hr & Hs & _ & _ & _ & Hcb & _);
    [split; reflexivity|reflexivity|reflexivity|reflexivity|].
  split; [exact Hr|]. split; [rewrite Hs; by eexists|exact Hcb].
Defined.

(** X7. [requestSession] never reads the four session fields, it only
    assigns them. On two controllers that differ in nothing but [session],
    [canvas], [gl] and [frameOfRef] (one torn down by [onEndSession] and
    one not, say) it gives the same result and makes the same calls, and
    when it succeeds it leaves the same world: the four fields are those of
    the new session. It takes nothing away from the host: the callbacks
    that were pending and the listeners that were registered before, those
    of an old session among them, are all still there, with the new ones
    behind them. *)
Theorem requestSession_ignores_session_fields (page : Page) (cv : Canvas)
    (cs : list Call) (w : World) (s0 : option XRSession) (c0 : option Canvas)
    (g0 : option GL) (f0 : option XRFrameOfReference) :
  canvas_via_surface page cv cs ->
  let w0 := with_this (with_session_fields s0 c0 g0 f0 (this w)) w in
  result (requestSession page w0) = result (requestSession page w) /\
  trace (requestSession page w0) = trace (requestSession page w) /\
  (result (requestSession page w) = Normal tt ->
   final (requestSession page w0) = final (requestSession page w)) /\
  frameCallbacks w `prefix_of` frameCallbacks (final (requestSession page w)) /\
  endListeners w `prefix_of` endListeners (final (requestSession page w)) /\
  final (onEndSession w) = with_this (with_session_fields None None None None (this w)) w.
Proof.
  intros Hcv w0. subst w0.
  assert (Hkeep : frameCallbacks w `prefix_of`
                    frameCallbacks (final (requestSession page w)) /\
                  endListeners w `prefix_of`
                    endListeners (final (requestSession page w)) /\
                  final (onEndSession w) =
                    with_this (with_session_fields None None None None (this w)) w).
  { split; [|split; [|by rewrite onEndSession_run]].
    - destruct (device (this w)) as [d|] eqn:Hd;
        [|by rewrite (requestSession_no_device page w Hd)].
      destruct (device_requestSession d (sessionCreationOptions (this w)))
        as [s|e] eqn:Hr; [|by rewrite (requestSession_rejected page w d e Hd Hr)].
      rewrite (requestSession_run page cv cs w d s Hcv Hd Hr).
      destruct (requestFrameOfReference s (frameOfRefType (this w))
                  (frameOfRefOptions (this w))); cbn [final]; [|done].
      by apply prefix_app_r.
    - destruct (device (this w)) as [d|] eqn:Hd;
        [|by rewrite (requestSession_no_device page w Hd)].
      destruct (device_requestSession d (sessionCreationOptions (this w)))
        as [s|e] eqn:Hr; [|by rewrite (requestSession_rejected page w d e Hd Hr)].
      rewrite (requestSession_run page cv cs w d s Hcv Hd Hr).
      destruct (requestFrameOfReference s (frameOfRefType (this w))
                  (frameOfRefOptions (this w))); cbn [final]; [|done].
      by apply prefix_app_r. }
  set (w0 := with_this (with_session_fields s0 c0 g0 f0 (this w)) w).
  assert (Hsame : result (requestSession page w0) = result (requestSession page w) /\
                  trace (requestSession page w0) = trace (requestSession page w) /\
                  (result (requestSession page w) = Normal tt ->
                   final (requestSession page w0) = final (requestSession page w))).
  { destruct (device (this w)) as [d|] eqn:Hd.
    - destruct (device_requestSession d (sessionCreationOptions (this w)))
        as [s|e] eqn:Hr.
      + rewrite (requestSession_run page cv cs w d s Hcv Hd Hr).
        rewrite (requestSession_run page cv cs w0 d s Hcv Hd Hr).
        cbn [this w0 with_this with_session_fields frameOfRefType frameOfRefOptions
             set_frameOfRef set_gl set_canvas set_session].
        destruct (requestFrameOfReference s (frameOfRefType (this w))
                    (frameOfRefOptions (this w))); cbn [result final trace];
          (split; [reflexivity|split; [reflexivity|]]);
          intros H; [reflexivity|discriminate H].
      + rewrite (requestSession_rejected page w d e Hd Hr).
        rewrite (requestSession_rejected page w0 d e Hd Hr).
        cbn [result final trace].
        split; [reflexivity|split; [reflexivity|]].
        intros H. discriminate H.
    - rewrite (requestSession_no_device page w Hd).
      rewrite (requestSession_no_device page w0 Hd).
      cbn [result final trace].
      split; [reflexivity|split; [reflexivity|]].
      intros H. discriminate H. }
  destruct Hsame as (H1 & H2 & H3).
  exact (conj H1 (conj H2 (conj H3 Hkeep))).
Qed.

Lemma requestSession_ignores_session_fields_witness :
  result (requestSession Mock.page (final (onEndSession Mock.active))) = Normal tt /\
  final (requestSession Mock.page (final (onEndSession Mock.active))) =
    final (requestSession Mock.page Mock.active) /\
  frameCallbacks (final (requestSession Mock.page (final (onEndSession Mock.active)))) =
    [(1, onXRFrameCallback); (1, onXRFrameCallback)] /\
  endListeners (final (requestSession Mock.page (final (onEndSession Mock.active)))) =
    [1; 1].
Proof.
  destruct (requestSession_ignores_session_fields Mock.page
              {| canvas_id := 3; context_gl := Some Mock.context |} [] Mock.active
              None None None None)
    as (Hr & _ & Hf & _ & _ & He); [split; reflexivity|].
  rewrite He. split; [rewrite Hr; reflexivity|].
  split; [apply Hf; reflexivity|]. rewrite (Hf eq_refl). split; reflexivity.
Defined.

(** X20. [requestSession] moves the block flag and the renderer only
    through the canvas it builds. When the device grants no session (or
    there is no device) the canvas is not built and [blocked] and the
    renderer are as before; when it grants one, [blocked] afterwards is what
    the last [block()] or [unblock()] of the canvas's constructor set, the
    renderer is the one its last [set controllable] wired in, and both are
    as before when the constructor makes no such call. That holds whether
    or not the frame of reference resolves afterwards. *)
Theorem requestSession_blocks_through_canvas (page : Page) (cv : Canvas)
    (cs : list Call) (w : World) :
  canvas_via_surface page cv cs ->
  let w' := final (requestSession page w) in
  result (blocked w') =
    Normal (if granted w then last_block cs (_block (this w)) else _block (this w)) /\
  renderer (this w') =
    (if granted w then last_renderer cs (renderer (this w)) else renderer (this w)) /\
  (Forall (fun c => c <> CBlock /\ c <> CUnblock) cs ->
   result (blocked w') = result (blocked w)).
Proof.
  intros Hcv w'.
  assert (Hb : _block (this w') =
               if granted w then last_block cs (_block (this w)) else _block (this w)).
  { subst w'. unfold granted.
    destruct (device (this w)) as [d|] eqn:Hd;
      [|by rewrite (requestSession_no_device page w Hd)].
    destruct (device_requestSession d (sessionCreationOptions (this w)))
      as [s|e] eqn:Hr; [|by rewrite (requestSession_rejected page w d e Hd Hr)].
    rewrite (requestSession_run page cv cs w d s Hcv Hd Hr).
    by destruct (requestFrameOfReference s (frameOfRefType (this w))
                   (frameOfRefOptions (this w))). }
  split; [|split].
  - unfold blocked. munfold. by rewrite Hb.
  - subst w'. unfold granted.
    destruct (device (this w)) as [d|] eqn:Hd;
      [|by rewrite (requestSession_no_device page w Hd)].
    destruct (device_requestSession d (sessionCreationOptions (this w)))
      as [s|e] eqn:Hr; [|by rewrite (requestSession_rejected page w d e Hd Hr)].
    rewrite (requestSession_run page cv cs w d s Hcv Hd Hr).
    by destruct (requestFrameOfReference s (frameOfRefType (this w))
                   (frameOfRefOptions (this w))).
  - intros Hquiet. unfold blocked. munfold. rewrite Hb.
    destruct (granted w); [|done]. f_equal.
    clear Hb Hcv. generalize (_block (this w)) as b.
    induction Hquiet as [|c rest [Hc1 Hc2] _ IH]; intros b; [done|].
    destruct c; try done; cbn [last_block]; apply IH.
Qed.

Lemma requestSession_blocks_through_canvas_witness :
  let blocking :=
    {| new_Canvas := fun _ =>
         block;; mret {| canvas_id := 3; context_gl := Some Mock.context |};
       new_XRWebGLLayer := fun _ _ _ => Mock.layer |} in
  result (blocked Mock.ready) = Normal false /\
  result (blocked (final (requestSession blocking Mock.ready))) = Normal true.
Proof.
  intros blocking. split; [reflexivity|].
  destruct (requestSession_blocks_through_canvas blocking
              {| canvas_id := 3; context_gl := Some Mock.context |} [CBlock]
              Mock.ready)
    as (Hb & _); [split; reflexivity|].
  rewrite Hb. reflexivity.
Defined.

(** ** The per-frame callback, its errors and the loop *)

(** X8. The per-frame callback completes normally exactly when the
    controller holds a session and either the pose does not resolve or both
    the graphics handle and the renderer are at hand. Whatever it throws is
    a [TypeError] (a member access on [undefined]); a run that throws hands
    nothing to the renderer; and only a missing session keeps it from
    registering the next callback. *)
Theorem onXRFrame_completes_iff (time : number) (frame : XRFrame) (w : World) :
  (result (onXRFrame time frame w) = Normal tt <->
   exists s, session (this w) = Some s /\
     (getDevicePose frame (frameOfRef (this w)) = None \/
      (is_Some (gl (this w)) /\ is_Some (renderer (this w))))) /\
  (forall e, result (onXRFrame time frame w) = Throw e -> e = TypeError) /\
  (result (onXRFrame time frame w) <> Normal tt ->
   submissions (trace (onXRFrame time frame w)) = []) /\
  (frameCallbacks (final (onXRFrame time frame w)) = frameCallbacks w <->
   session (this w) = None).
Proof.
  assert (Hgrow : forall (l : list (nat * Callback)) x, l ++ [x] <> l).
  { intros l x H. apply (f_equal length) in H. rewrite length_app in H.
    simpl in H. lia. }
  frame_cases time frame w.
  - split; [|split; [|split]].
    + split; [discriminate|]. intros (s & Hs' & _). congruence.
    + intros e He. congruence.
    + done.
    + done.
  - split; [|split; [|split]].
    + split; [|done]. intros _. exists s. auto.
    + discriminate.
    + done.
    + cbn. split; [intros H; by apply Hgrow in H|congruence].
  - split; [|split; [|split]].
    + split; [discriminate|]. intros (s' & _ & [Hp'|[[g Hg'] _]]); congruence.
    + intros e He. congruence.
    + done.
    + cbn. split; [intros H; by apply Hgrow in H|congruence].
  - split; [|split; [|split]].
    + destruct (renderer (this w)) as [r|].
      * split; [|done]. intros _. exists s. split; [done|]. right. split; by eexists.
      * split; [discriminate|].
        intros (s' & _ & [Hp'|[_ [r Hr]]]); congruence.
    + intros e He. destruct (renderer (this w)); congruence.
    + intros Hne. rewrite !submissions_app, submissions_filled_trace.
      by destruct (renderer (this w)).
    + cbn. split; [intros H; by apply Hgrow in H|congruence].
Qed.

(** X9. A callback that is still pending when the session has been torn down
    ends the loop: invoked, it throws a [TypeError] before anything else;
    and the host delivering a frame consumes the pending callbacks without
    any call being made, any state changed, or any callback registered
    again. *)
Theorem stale_callback_ends_loop (time : number) (frame : XRFrame) (w : World) :
  onXRFrame time frame (final (onEndSession w)) =
    mkRun (Throw TypeError) (final (onEndSession w)) [] /\
  deliver time frame (final (onEndSession w)) =
    (take_callbacks (final (onEndSession w)), []).
Proof.
  rewrite onEndSession_run. cbn [final].
  set (w' := with_this (torn_down (this w)) w).
  assert (Hs : session (this w') = None) by reflexivity.
  split; [by apply onXRFrame_no_session|].
  unfold deliver.
  assert (Hs' : session (this (take_callbacks w')) = None) by reflexivity.
  generalize dependent (take_callbacks w'). intros w0 Hs0.
  induction (frameCallbacks w') as [|[sid []] rest IH]; [done|].
  cbn [run_callbacks]. rewrite (onXRFrame_no_session time frame w0 Hs0).
  cbn [final trace]. by rewrite IH.
Qed.

(** A frame delivered to a running controller. *)
Lemma deliver_running (time : number) (frame : XRFrame) (w : World)
    (s : XRSession) :
  running s w ->
  running s (deliver time frame w).1 /\
  frameOfRef (this (deliver time frame w).1) = frameOfRef (this w) /\
  exists a,
    submissions (deliver time frame w).2 =
      if posed (frameOfRef (this w)) (time, frame) then [(0%Z, a)] else [].
Proof.
  intros (Hs & [g Hg] & [r Hr] & Hcb).
  rewrite (deliver_one time frame w _ Hcb). cbn [fst snd]. rewrite app_nil_r.
  unfold posed. cbn [snd].
  assert (Hs' : session (this (take_callbacks w)) = Some s) by exact Hs.
  destruct (getDevicePose frame (frameOfRef (this w))) as [pose|] eqn:Hp.
  - assert (Hp' : getDevicePose frame (frameOfRef (this (take_callbacks w))) =
                  Some pose) by exact Hp.
    assert (Hg' : gl (this (take_callbacks w)) = Some g) by exact Hg.
    rewrite (onXRFrame_posed time frame _ s pose g Hs' Hp' Hg').
    cbn [result final trace this take_callbacks]. rewrite Hr.
    rewrite bool_decide_eq_true_2 by by eexists.
    split; [|split; [reflexivity|]].
    + repeat split; cbn; [done|by eexists|by eexists].
    + eexists. rewrite !submissions_app, submissions_filled_trace. reflexivity.
  - assert (Hp' : getDevicePose frame (frameOfRef (this (take_callbacks w))) = None)
      by exact Hp.
    rewrite (onXRFrame_no_pose time frame _ s Hs' Hp').
    cbn [result final trace]. rewrite bool_decide_eq_false_2 by by intros [? ?].
    split; [|split; [reflexivity|by exists []]].
    repeat split; cbn; [done|by eexists|by eexists].
Qed.

(** X10. While a controller is running, the loop renders every frame whose
    pose resolves and no other: over any sequence of delivered frames the
    renderer's [frame] is called once per frame with a pose, always with
    elapsed time [0]; and afterwards the controller is running still, with
    its one callback pending. *)
Theorem loop_renders_posed_frames (fs : list (number * XRFrame)) (w : World)
    (s : XRSession) :
  running s w ->
  length (submissions (frames fs w).2) =
    length (filter (fun tf => posed (frameOfRef (this w)) tf = true) fs) /\
  Forall (fun p => p.1 = 0%Z) (submissions (frames fs w).2) /\
  running s (frames fs w).1.
Proof.
  revert w. induction fs as [|[time frame] rest IH]; intros w Hrun.
  - cbn. split; [done|]. split; [constructor|done].
  - cbn [frames].
    destruct (deliver_running time frame w s Hrun) as (Hrun1 & Hf1 & a & Hsub1).
    destruct (deliver time frame w) as [w1 t1] eqn:E1. cbn [fst snd] in *.
    destruct (IH w1 Hrun1) as (Hlen & Hzero & Hrun2).
    destruct (frames rest w1) as [w2 t2] eqn:E2. cbn [fst snd] in *.
    rewrite submissions_app, Hsub1, Hf1 in *. rewrite filter_cons.
    destruct (posed (frameOfRef (this w)) (time, frame)) eqn:Hposed.
    + rewrite decide_True by done. cbn [length app]. rewrite Hlen.
      split; [done|]. split; [by constructor|done].
    + rewrite decide_False by done. cbn [app].
      split; [done|]. split; [done|done].
Qed.

Lemma loop_renders_posed_frames_witness :
  running Mock.the_session Mock.active /\
  length (submissions
            (frames [(16%Z, Mock.stereo_frame); (33%Z, Mock.lost_frame);
                     (50%Z, Mock.mono_frame)] Mock.active).2) = 2.
Proof.
  assert (Hrun : running Mock.the_session Mock.active).
  { repeat split; by eexists. }
  split; [exact Hrun|].
  destruct (loop_renders_posed_frames
              [(16%Z, Mock.stereo_frame); (33%Z, Mock.lost_frame);
               (50%Z, Mock.mono_frame)] Mock.active Mock.the_session Hrun)
    as (Hlen & _).
  rewrite Hlen. reflexivity.
Defined.

(** ** The pool over the life of a controller *)

Lemma call_pool (c : Call) (w : World) :
  (forall time frame, c <> COnXRFrame time frame) ->
  renderViews (this (call c w)) = renderViews (this w) /\
  heap (call c w) = heap w.
Proof.
  intros Hc. destruct c; cbn [call]; try done.
  - by destruct (Hc time frame).
  - destruct (session (this w)) as [s|] eqn:Hs.
    + rewrite (endSession_run w s Hs). cbn [final].
      by destruct (fires_end s && bool_decide (session_id s ∈ endListeners w)).
    + by rewrite (endSession_no_session w Hs).
  - destruct (device (this w)) as [d|] eqn:Hd.
    + by rewrite (supportsSession_run w d Hd).
    + by rewrite (supportsSession_uninitialized w Hd).
  - rewrite initialize_run. destruct (xr nav) as [entry|]; [|done].
    by destruct (requestDevice entry).
Qed.

Lemma call_pool_inv (c : Call) (w : World) :
  pool_inv w -> pool_inv (call c w).
Proof.
  intros (Hok & Hlen & Hall).
  assert (Hc : (exists time frame, c = COnXRFrame time frame) \/
               (forall time frame, c <> COnXRFrame time frame)).
  { destruct c; try (right; discriminate). left. eauto. }
  destruct Hc as [(time & frame & ->)|Hc].
  - cbn [call]. destruct (onXRFrame_pool_ok time frame w Hok) as [Hok' Hnew].
    pose proof (onXRFrame_pool_length time frame w).
    split; [exact Hok'|]. split; lia.
  - unfold pool_inv. by destruct (call_pool c w Hc) as [-> ->].
Qed.

Lemma run_callbacks_pool_inv (cbs : list (nat * Callback)) (time : number)
    (frame : XRFrame) : forall w,
  pool_inv w -> pool_inv (run_callbacks cbs time frame w).1.
Proof.
  induction cbs as [|[sid []] rest IH]; intros w Hw; [done|].
  cbn [run_callbacks].
  destruct (run_callbacks rest time frame (final (onXRFrame time frame w)))
    as [w' tr] eqn:E.
  pose proof (IH _ (call_pool_inv (COnXRFrame time frame) w Hw)) as H.
  cbn [call] in H. by rewrite E in H.
Qed.

Lemma requestSession_pool (page : Page) (cv : Canvas) (cs : list Call) (w : World) :
  canvas_via_surface page cv cs ->
  renderViews (this (final (requestSession page w))) = renderViews (this w) /\
  heap (final (requestSession page w)) = heap w.
Proof.
  intros Hcv.
  destruct (device (this w)) as [d|] eqn:Hd;
    [|by rewrite (requestSession_no_device page w Hd)].
  destruct (device_requestSession d (sessionCreationOptions (this w)))
    as [s|e] eqn:Hr; [|by rewrite (requestSession_rejected page w d e Hd Hr)].
  rewrite (requestSession_run page cv cs w d s Hcv Hd Hr).
  by destruct (requestFrameOfReference s (frameOfRefType (this w))
                 (frameOfRefOptions (this w))).
Qed.

Lemma step_pool_inv (st : Step) (w : World) :
  via_surface st -> pool_inv w -> pool_inv (step st w).
Proof.
  intros Hst Hw. destruct st as [c|page|time frame|sid]; cbn [step].
  - by apply call_pool_inv.
  - destruct Hst as (cv & cs & Hcv). unfold pool_inv.
    by destruct (requestSession_pool page cv cs w Hcv) as [-> ->].
  - unfold deliver. by apply run_callbacks_pool_inv.
  - unfold device_end. rewrite dispatch_end_run. cbn [final].
    by destruct (bool_decide (sid ∈ endListeners w)).
Qed.

(** X11. Over the whole life of a controller, from its construction on and
    whatever happens in whatever order (calls of its methods, sessions
    requested on pages whose canvas uses the controller through its control
    surface, frames delivered by the host to the pending callbacks, sessions
    ended by the device), the pool is never empty, has no holes, every slot
    refers to an existing object, no two slots share an object, and every
    [RenderView] ever created is in the pool: there are as many objects as
    slots. *)
Theorem pool_stays_well_formed (sessionOpts : option XRSessionCreationOptions)
    (ss : list Step) :
  Forall via_surface ss ->
  pool_ok (renderViews (this (steps ss (constructor sessionOpts))))
    (heap (steps ss (constructor sessionOpts))) /\
  1 <= length (renderViews (this (steps ss (constructor sessionOpts)))) /\
  length (heap (steps ss (constructor sessionOpts))) =
    length (renderViews (this (steps ss (constructor sessionOpts)))).
Proof.
  intros Hss.
  assert (Hinv : forall w, pool_inv w -> pool_inv (steps ss w)).
  { induction Hss as [|st rest Hst _ IH]; intros w Hw; [done|].
    unfold steps in *. cbn [foldl]. by apply IH, step_pool_inv. }
  apply (Hinv (constructor sessionOpts)).
  split; [apply pool_ok_constructor|]. split; reflexivity.
Qed.

Lemma pool_stays_well_formed_witness :
  let w := steps [SCall (CInitialize Mock.navigator);
                  SRequestSession Mock.page;
                  SDeliver 16%Z Mock.stereo_frame;
                  SCall CEndSession;
                  SRequestSession Mock.page;
                  SDeliver 32%Z Mock.mono_frame] (constructor None) in
  is_Some (session (this w)) /\
  length (renderViews (this w)) = 2 /\
  length (heap w) = 2 /\
  pool_ok (renderViews (this w)) (heap w).
Proof.
  intros w.
  destruct (pool_stays_well_formed None
              [SCall (CInitialize Mock.navigator);
               SRequestSession Mock.page;
               SDeliver 16%Z Mock.stereo_frame;
               SCall CEndSession;
               SRequestSession Mock.page;
               SDeliver 32%Z Mock.mono_frame])
    as (Hok & _ & _).
  - repeat constructor;
      exists {| canvas_id := 3; context_gl := Some Mock.context |}, [];
      split; reflexivity.
  - split; [vm_compute; by eexists|].
    split; [vm_compute; reflexivity|]. split; [vm_compute; reflexivity|exact Hok].
Defined.

(** X12. Without slots left over from an earlier frame the renderer gets
    exactly this frame's views: when the pool is no longer than the frame's
    views, every array handed to the renderer is the slice of the first N
    slots of the pool, N the number of views; and when the pose resolves
    (session and graphics handle at hand) the pool has exactly N slots
    afterwards, so the next frame with as many views is in the same case. *)
Theorem submission_is_slice_without_stale (time : number) (frame : XRFrame)
    (w : World) :
  length (renderViews (this w)) <= length (views frame) ->
  submits_exact_slice time frame w /\
  (forall s pose g,
     session (this w) = Some s ->
     getDevicePose frame (frameOfRef (this w)) = Some pose ->
     gl (this w) = Some g ->
     length (renderViews (this (final (onXRFrame time frame w)))) =
       length (views frame)).
Proof.
  intros Hlen. split; [by apply submits_exact_slice_without_stale|].
  intros s pose g Hs Hp Hg.
  rewrite (onXRFrame_posed time frame w s pose g Hs Hp Hg).
  cbn [final this with_pool set_renderViews renderViews]. unfold filled.
  rewrite fill_length by lia. rewrite length_fmap. lia.
Qed.

Lemma submission_is_slice_without_stale_witness :
  submits_exact_slice 16%Z Mock.stereo_frame Mock.invoked /\
  length (renderViews (this (final (onXRFrame 16%Z Mock.stereo_frame Mock.invoked)))) = 2.
Proof.
  destruct (submission_is_slice_without_stale 16%Z Mock.stereo_frame Mock.invoked)
    as [Hslice Hlen]; [vm_compute; repeat constructor|].
  split; [exact Hslice|].
  apply (Hlen Mock.the_session Mock.the_pose Mock.context); reflexivity.
Defined.

(** X13. The views reach the renderer in the device's order, each with its
    own data: for a frame whose pose resolves (session, graphics handle and
    renderer at hand, the pool well formed), entry k of the array handed to
    the renderer refers to a record that holds the projection matrix of
    view k, the view matrix the pose gives for view k and the viewport the
    session's base layer gives for view k. *)
Theorem views_are_submitted_in_order (time : number) (frame : XRFrame)
    (w : World) (s : XRSession) (pose : XRDevicePose) (g : GL) (rd : Renderer) :
  session (this w) = Some s ->
  getDevicePose frame (frameOfRef (this w)) = Some pose ->
  gl (this w) = Some g ->
  renderer (this w) = Some rd ->
  pool_ok (renderViews (this w)) (heap w) ->
  exists a,
    submissions (trace (onXRFrame time frame w)) = [(0%Z, a)] /\
    length (views frame) <= length a /\
    forall k view, views frame !! k = Some view ->
      exists rv,
        deref (heap (final (onXRFrame time frame w))) a k = Some rv /\
        RenderView.projectionMatrix rv = Some (projectionMatrix view) /\
        RenderView.viewMatrix rv = Some (getViewMatrix pose view) /\
        RenderView.viewport rv = getViewport (baseLayer s) view.
Proof.
  intros Hs Hp Hg Hr Hok.
  destruct (onXRFrame_submits_pool time frame w s pose g rd Hs Hp Hg Hr Hok)
    as (_ & Hsub & Hlen & Hviews & _).
  eexists. split; [exact Hsub|]. split; [lia|].
  intros k view Hk. eexists. split; [by apply Hviews|done].
Qed.

Lemma views_are_submitted_in_order_witness :
  exists a,
    submissions (trace (onXRFrame 16%Z Mock.stereo_frame Mock.invoked)) = [(0%Z, a)] /\
    length (views Mock.stereo_frame) <= length a.
Proof.
  destruct (views_are_submitted_in_order 16%Z Mock.stereo_frame Mock.invoked
              Mock.the_session Mock.the_pose Mock.context Mock.the_renderer)
    as (a & Hsub & Hlen & _);
    [reflexivity|reflexivity|reflexivity|reflexivity|
     apply (pool_ok_constructor None)|].
  exists a. exact (conj Hsub Hlen).
Defined.

(** ** The earlier controller *)

Lemma legacy_views_run (pose : XRDevicePose) (w : Legacy.World) (s : XRSession)
    (vs : list XRView) : forall acc,
  Legacy.session (Legacy.this w) = Some s ->
  Legacy.onXRFrame_views pose w vs acc =
  (Normal (acc ++ (Legacy.view_record s pose <$> vs)),
   flat_map (fun view => [Legacy.EvGetViewMatrix view;
                          Legacy.EvGetViewport (session_id s) view]) vs).
Proof.
  induction vs as [|view rest IH]; intros acc Hs.
  - cbn. by rewrite app_nil_r.
  - cbn [Legacy.onXRFrame_views]. rewrite Hs, (IH _ Hs).
    cbn [fmap list_fmap flat_map]. by rewrite <- app_assoc.
Qed.

Lemma legacy_submissions_views (s : XRSession) (vs : list XRView) :
  Legacy.submissions
    (flat_map (fun view => [Legacy.EvGetViewMatrix view;
                            Legacy.EvGetViewport (session_id s) view]) vs) = [].
Proof. induction vs as [|view rest IH]; [done|exact IH]. Qed.

Lemma legacy_submissions_app (l1 l2 : list Legacy.Event) :
  Legacy.submissions (l1 ++ l2) = Legacy.submissions l1 ++ Legacy.submissions l2.
Proof. apply omap_app. Qed.

Lemma legacy_onXRFrame_posed (time : number) (frame : XRFrame)
    (w : Legacy.World) (s : XRSession) (pose : XRDevicePose) (g : GL) :
  Legacy.session (Legacy.this w) = Some s ->
  getDevicePose frame (Legacy.frameOfRef (Legacy.this w)) = Some pose ->
  Legacy.gl (Legacy.this w) = Some g ->
  Legacy.result (Legacy.onXRFrame time frame w) =
    match Legacy.renderer (Legacy.this w) with
    | Some _ => Normal tt
    | None => Throw TypeError
    end /\
  Legacy.final (Legacy.onXRFrame time frame w) = Legacy.registered s w /\
  Legacy.submissions (Legacy.trace (Legacy.onXRFrame time frame w)) =
    match Legacy.renderer (Legacy.this w) with
    | Some _ => [(0%Z, Legacy.view_record s pose <$> views frame)]
    | None => []
    end.
Proof.
  intros Hs Hp Hg. unfold Legacy.onXRFrame. rewrite Hs.
  cbn [Legacy.this Legacy.registered]. rewrite Hp, Hg, Hs.
  rewrite (legacy_views_run pose (Legacy.registered s w) s (views frame) [] Hs).
  destruct (Legacy.renderer (Legacy.this w)) as [r|];
    cbn [Legacy.result Legacy.final Legacy.trace];
    (split; [reflexivity|split; [reflexivity|]]);
    rewrite !legacy_submissions_app, legacy_submissions_views; reflexivity.
Qed.

Lemma legacy_onXRFrame_unposed (time : number) (frame : XRFrame)
    (w : Legacy.World) :
  Legacy.session (Legacy.this w) = None \/
  getDevicePose frame (Legacy.frameOfRef (Legacy.this w)) = None \/
  Legacy.gl (Legacy.this w) = None ->
  Legacy.submissions (Legacy.trace (Legacy.onXRFrame time frame w)) = [] /\
  Legacy.this (Legacy.final (Legacy.onXRFrame time frame w)) = Legacy.this w /\
  Legacy.result (Legacy.onXRFrame time frame w) =
    match Legacy.session (Legacy.this w) with
    | None => Throw TypeError
    | Some _ =>
        match getDevicePose frame (Legacy.frameOfRef (Legacy.this w)) with
        | None => Normal tt
        | Some _ => Throw TypeError
        end
    end.
Proof.
  intros H. unfold Legacy.onXRFrame.
  destruct (Legacy.session (Legacy.this w)) as [s|] eqn:Hs; [|done].
  cbn [Legacy.this Legacy.registered].
  destruct (getDevicePose frame (Legacy.frameOfRef (Legacy.this w)))
    as [pose|] eqn:Hp; [|done].
  destruct (Legacy.gl (Legacy.this w)) as [g|] eqn:Hg; [|done].
  destruct H as [H|[H|H]]; discriminate H.
Qed.

(** X14. The earlier per-frame callback hands the renderer exactly the
    frame's views: whenever it calls the renderer's [frame], the elapsed
    time is [0] and the array holds one new record per view of the frame,
    in the order of the views, and nothing else, so its length is the
    number of views. It never changes a field of the controller. *)
Theorem legacy_submits_exactly_the_views (time : number) (frame : XRFrame)
    (w : Legacy.World) :
  Legacy.this (Legacy.final (Legacy.onXRFrame time frame w)) = Legacy.this w /\
  forall t a,
    In (t, a) (Legacy.submissions (Legacy.trace (Legacy.onXRFrame time frame w))) ->
    t = 0%Z /\
    length a = length (views frame) /\
    exists s pose,
      Legacy.session (Legacy.this w) = Some s /\
      getDevicePose frame (Legacy.frameOfRef (Legacy.this w)) = Some pose /\
      a = Legacy.view_record s pose <$> views frame.
Proof.
  destruct (Legacy.session (Legacy.this w)) as [s|] eqn:Hs;
    [destruct (getDevicePose frame (Legacy.frameOfRef (Legacy.this w)))
       as [pose|] eqn:Hp;
     [destruct (Legacy.gl (Legacy.this w)) as [g|] eqn:Hg|]|].
  - destruct (legacy_onXRFrame_posed time frame w s pose g Hs Hp Hg)
      as (_ & -> & ->).
    split; [reflexivity|]. intros t a Hin.
    destruct (Legacy.renderer (Legacy.this w)); [|destruct Hin].
    destruct Hin as [Heq|[]]. injection Heq as <- <-.
    split; [done|]. split; [by rewrite length_fmap|]. by exists s, pose.
  - destruct (legacy_onXRFrame_unposed time frame w) as (-> & -> & _); [auto|].
    split; [done|]. intros t a [].
  - destruct (legacy_onXRFrame_unposed time frame w) as (-> & -> & _); [auto|].
    split; [done|]. intros t a [].
  - destruct (legacy_onXRFrame_unposed time frame w) as (-> & -> & _); [auto|].
    split; [done|]. intros t a [].
Qed.

(** X15. The pooled callback renders what the earlier one rendered. Run on
    controllers that hold the same session, graphics handle, frame of
    reference and renderer, the two complete the same way (normally, or
    with a [TypeError]) and call the renderer equally often. When they do
    call it (the pool well formed), entry k of the pooled array refers to a
    record with the values of entry k of the earlier array, for every entry
    of the earlier array. *)
Theorem pooled_callback_agrees_with_legacy (time : number) (frame : XRFrame)
    (old : Legacy.World) (w : World) :
  same_session old w ->
  Legacy.result (Legacy.onXRFrame time frame old) = result (onXRFrame time frame w) /\
  length (Legacy.submissions (Legacy.trace (Legacy.onXRFrame time frame old))) =
    length (submissions (trace (onXRFrame time frame w))) /\
  (pool_ok (renderViews (this w)) (heap w) ->
   forall t_old a_old t a,
     In (t_old, a_old)
        (Legacy.submissions (Legacy.trace (Legacy.onXRFrame time frame old))) ->
     In (t, a) (submissions (trace (onXRFrame time frame w))) ->
     t_old = t /\
     length a_old <= length a /\
     forall k old_rv, a_old !! k = Some old_rv ->
       exists rv,
         deref (heap (final (onXRFrame time frame w))) a k = Some rv /\
         same_record old_rv rv).
Proof.
  intros (Hs & Hg & Hf & Hr).
  destruct (session (this w)) as [s|] eqn:Es;
    [destruct (getDevicePose frame (frameOfRef (this w))) as [pose|] eqn:Ep;
     [destruct (gl (this w)) as [g|] eqn:Eg|]|].
  - rewrite <- Hf in Ep.
    destruct (legacy_onXRFrame_posed time frame old s pose g Hs Ep Hg)
      as (-> & _ & ->).
    rewrite Hf in Ep. rewrite Hr.
    rewrite (onXRFrame_posed time frame w s pose g Es Ep Eg).
    cbn [result final trace].
    rewrite !submissions_app, submissions_filled_trace.
    destruct (renderer (this w)) as [rd|] eqn:Er; cbn [app submissions omap].
    + split; [done|]. split; [done|]. intros Hok t_old a_old t a Hold Hnew.
      destruct Hold as [Hold|[]]. destruct Hnew as [Hnew|[]].
      injection Hold as <- <-. simpl in Hnew. injection Hnew as <- <-.
      destruct (onXRFrame_submits_pool time frame w s pose g rd Es Ep Eg Er Hok)
        as (_ & _ & Hlen & Hviews & _).
      rewrite (onXRFrame_posed time frame w s pose g Es Ep Eg) in Hlen, Hviews.
      cbn [final this heap with_pool set_renderViews renderViews] in Hlen, Hviews.
      split; [done|]. split; [rewrite length_fmap; lia|].
      intros k old_rv Hk. rewrite list_lookup_fmap in Hk.
      destruct (views frame !! k) as [view|] eqn:Ek; [|discriminate Hk].
      injection Hk as <-. eexists. split; [by apply Hviews|done].
    + split; [done|]. split; [done|]. intros _ t_old a_old t a [].
  - destruct (legacy_onXRFrame_unposed time frame old) as (-> & _ & ->);
      [rewrite Hg; auto|].
    rewrite Hs, Hf, Ep.
    rewrite (onXRFrame_no_gl time frame w s pose Es Ep Eg). cbn [result trace].
    split; [done|]. split; [done|]. intros _ t_old a_old t a [].
  - destruct (legacy_onXRFrame_unposed time frame old) as (-> & _ & ->);
      [rewrite Hf; auto|].
    rewrite Hs, Hf, Ep.
    rewrite (onXRFrame_no_pose time frame w s Es Ep). cbn [result trace].
    split; [done|]. split; [done|]. intros _ t_old a_old t a [].
  - destruct (legacy_onXRFrame_unposed time frame old) as (-> & _ & ->);
      [rewrite Hs; auto|].
    rewrite Hs.
    rewrite (onXRFrame_no_session time frame w Es). cbn [result trace].
    split; [done|]. split; [done|]. intros _ t_old a_old t a [].
Qed.

Lemma pooled_callback_agrees_with_legacy_witness :
  same_session LegacyMock.invoked Mock.invoked /\
  Legacy.result (Legacy.onXRFrame 16%Z Mock.stereo_frame LegacyMock.invoked) =
    result (onXRFrame 16%Z Mock.stereo_frame Mock.invoked) /\
  length (Legacy.submissions
            (Legacy.trace (Legacy.onXRFrame 16%Z Mock.stereo_frame LegacyMock.invoked))) = 1.
Proof.
  assert (Hsame : same_session LegacyMock.invoked Mock.invoked)
    by (repeat split).
  split; [exact Hsame|].
  destruct (pooled_callback_agrees_with_legacy 16%Z Mock.stereo_frame
              LegacyMock.invoked Mock.invoked Hsame) as (Hr & _).
  split; [exact Hr|reflexivity].
Defined.

(** ** Byte sizes of formats *)

Section Switch.

Import FormatByteSizes.

Context {B : Type} (context : Context) (format : option Z).

Lemma switch_outcome (cases : list (Label * B)) (default b : B) :
  switch context format cases default = Normal b ->
  b = default \/ In b cases.*2.
Proof.
  induction cases as [|[l b'] rest IH]; cbn [switch]; intros H.
  - injection H as <-. by left.
  - destruct (eval context l) as [v|e]; [|discriminate H]. cbn in H.
    case_decide.
    + injection H as <-. right. by left.
    + destruct (IH H) as [->|Hin]; [by left|]. right. by right.
Qed.

(** A label that is the format shadows every later label. *)
Lemma switch_shadow (pre post : list (Label * B)) (l : Label) (b0 default b : B) :
  switch context format (pre ++ (l, b0) :: post) default = Normal b ->
  eval context l = Normal format ->
  b = b0 \/ In b pre.*2.
Proof.
  intros H Hl. induction pre as [|[l' b'] pre IH]; cbn [switch app] in H.
  - rewrite Hl in H. cbn in H. rewrite decide_True in H by done.
    injection H as <-. by left.
  - destruct (eval context l') as [v|e]; [|discriminate H]. cbn in H.
    case_decide.
    + injection H as <-. right. by left.
    + destruct (IH H) as [->|Hin]; [by left|]. right. by right.
Qed.

(** The label that matched. *)
Lemma switch_matched (cases : list (Label * B)) (default b : B) :
  switch context format cases default = Normal b ->
  b = default \/ exists l, In (l, b) cases /\ eval context l = Normal format.
Proof.
  induction cases as [|[l b'] rest IH]; cbn [switch]; intros H.
  - injection H as <-. by left.
  - destruct (eval context l) as [v|e] eqn:El; [|discriminate H]. cbn in H.
    case_decide.
    + injection H as <-. subst v. right. exists l. split; [by left|done].
    + destruct (IH H) as [->|(l' & Hin & Hl')]; [by left|].
      right. exists l'. split; [by right|done].
Qed.

End Switch.

(** The two switches behind a size that is returned. *)
Lemma byteSizeOfFormat_Normal (context : FormatByteSizes.Context)
    (format : option Z) (n : Z) :
  FormatByteSizes.byteSizeOfFormat context format = Normal n ->
  exists c24 a b c d e,
    FormatByteSizes.switch context format (FormatByteSizes.first_cases c24)
      FormatByteSizes.Break = Normal FormatByteSizes.Break /\
    FormatByteSizes.switch context format
      (FormatByteSizes.second_cases a b c d e) FormatByteSizes.Unknown =
      Normal (FormatByteSizes.Size n).
Proof.
  unfold FormatByteSizes.byteSizeOfFormat, mbind, FormatByteSizes.Completion_bind,
    mret, FormatByteSizes.Completion_ret, assert.
  intros H.
  destruct (FormatByteSizes.extension _ _ "UNSIGNED_INT_24_8_WEBGL") as [c24|];
    [|discriminate H].
  destruct (FormatByteSizes.switch context format _ FormatByteSizes.Break)
    as [[|]|] eqn:E1; try discriminate H.
  destruct (FormatByteSizes.extension _ _ "SRGB8_ALPHA8_EXT") as [a|];
    [|discriminate H].
  destruct (FormatByteSizes.extension _ _ "SRGB_EXT") as [b|]; [|discriminate H].
  destruct (FormatByteSizes.extension _ _ "SRGB_ALPHA_EXT") as [c|];
    [|discriminate H].
  destruct (FormatByteSizes.extension _ _ "RGB32F_EXT") as [d|]; [|discriminate H].
  destruct (FormatByteSizes.extension _ _ "RGBA32F_EXT") as [e|]; [|discriminate H].
  destruct (FormatByteSizes.switch context format _ FormatByteSizes.Unknown)
    as [[bytes| |]|] eqn:E2; try discriminate H.
  injection H as <-. by exists c24, a, b, c, d, e.
Qed.

(** X16. [byteSizeOfFormat] returns no other size than 1, 2, 3, 4, 5, 6, 8,
    12 or 16 bytes, whatever the context's constants are; and it never
    returns for a format that is [undefined]. *)
Theorem byteSizeOfFormat_returns_known_sizes (context : FormatByteSizes.Context)
    (format : option Z) (n : Z) :
  FormatByteSizes.byteSizeOfFormat context format = Normal n ->
  In n FormatByteSizes.sizes /\ format <> None.
Proof.
  intros H.
  destruct (byteSizeOfFormat_Normal context format n H)
    as (c24 & a & b & c & d & e & _ & H2).
  split.
  - apply switch_outcome in H2 as [H2|H2]; [discriminate H2|].
    cbn in H2. unfold FormatByteSizes.sizes.
    repeat (destruct H2 as [H2|H2];
            [first [discriminate H2 | injection H2 as <-; cbn; tauto]|]).
    destruct H2.
  - intros ->.
    apply (switch_shadow context None [] _ FormatByteSizes.Undefined) in H2;
      [|reflexivity].
    destruct H2 as [H2|[]]. discriminate H2.
Qed.

Lemma byteSizeOfFormat_returns_known_sizes_witness :
  FormatByteSizes.byteSizeOfFormat FormatMock.context (Some 6408%Z) = Normal 4%Z /\
  In 4%Z FormatByteSizes.sizes.
Proof.
  assert (H : FormatByteSizes.byteSizeOfFormat FormatMock.context (Some 6408%Z) =
              Normal 4%Z) by (vm_compute; reflexivity).
  split; [exact H|].
  exact (proj1 (byteSizeOfFormat_returns_known_sizes FormatMock.context
                  (Some 6408%Z) 4%Z H)).
Defined.

Section Switch_reaches.

Import FormatByteSizes.

Context {B : Type} (context : Context) (format : option Z).

(** The label at position [i] is the format, and the labels before it can
    be evaluated and either are not the format or lead to the same place. *)
Lemma switch_reaches (cases : list (Label * B)) (i : nat) (l : Label)
    (b default : B) :
  cases !! i = Some (l, b) ->
  eval context l = Normal format ->
  Forall (fun c => (exists v, eval context c.1 = Normal v) /\
                   (c.2 = b \/ eval context c.1 <> Normal format))
         (take i cases) ->
  switch context format cases default = Normal b.
Proof.
  revert i. induction cases as [|[l' b'] rest IH]; intros i Hi Hl Hpre.
  - by rewrite lookup_nil in Hi.
  - destruct i as [|i]; cbn [switch].
    + injection Hi as -> ->. rewrite Hl. cbn. by rewrite decide_True.
    + cbn in Hi. cbn [take] in Hpre. apply Forall_cons in Hpre as [[[v Hv] Hb] Hpre].
      cbn in Hv, Hb. rewrite Hv. cbn. case_decide.
      * destruct Hb as [->|Hne]; [done|]. subst v. by destruct Hne.
      * by apply (IH i).
Qed.

Lemma switch_throws (cases : list (Label * B)) (default : B) (e : JsError) :
  switch context format cases default = Throw e -> e = TypeError.
Proof.
  induction cases as [|[l b] rest IH]; cbn [switch]; [discriminate|].
  destruct (eval context l) as [v|e'] eqn:El; cbn.
  - case_decide; [discriminate|exact IH].
  - intros H. injection H as <-.
    destruct l; cbn in El; try discriminate El;
      match type of El with prop ?o _ = _ => destruct o; by inversion El end.
Qed.

End Switch_reaches.

(** X17. A data type given instead of a format is refused before any format
    is looked up: when the format is the value of one of the type
    enumerators of [gl] ([UNSIGNED_BYTE], [UNSIGNED_SHORT_5_6_5],
    [UNSIGNED_SHORT_4_4_4_4], [UNSIGNED_SHORT_5_5_5_1], [UNSIGNED_SHORT],
    [UNSIGNED_INT], [FLOAT], [BYTE], [SHORT], [INT]),
    [byteSizeOfFormat] fails the assertion "expected format instead of
    type", with the format in the message, and returns no size. It reads
    neither [gl2] nor the sRGB or float extensions for that. *)
Theorem byteSizeOfFormat_refuses_types (context : FormatByteSizes.Context)
    (m f : gmap string Z) (name : string) (v : Z) :
  FormatByteSizes.gl context = Some m ->
  FormatByteSizes.gl2facade context = Some f ->
  (FormatByteSizes.supportsDepthTexture context = true ->
   is_Some (FormatByteSizes.depthTexture context)) ->
  In name FormatByteSizes.gl_types ->
  m !! name = Some v ->
  FormatByteSizes.byteSizeOfFormat context (Some v) =
    Throw (EvalError ("expected format instead of type " +:+ pretty v)).
Proof.
  intros Hgl Hfacade Hdepth Hname Hv.
  unfold FormatByteSizes.byteSizeOfFormat, mbind, FormatByteSizes.Completion_bind.
  assert (Hext : exists c24,
            FormatByteSizes.extension (FormatByteSizes.supportsDepthTexture context)
              (FormatByteSizes.depthTexture context) "UNSIGNED_INT_24_8_WEBGL" =
            Normal c24).
  { unfold FormatByteSizes.extension.
    destruct (FormatByteSizes.supportsDepthTexture context); [|by eexists].
    destruct Hdepth as [o ->]; [done|]. by eexists. }
  destruct Hext as [c24 ->]. lazy beta iota.
  assert (Hsw : FormatByteSizes.switch context (Some v)
                  (FormatByteSizes.first_cases c24) FormatByteSizes.Break =
                Normal FormatByteSizes.IsType).
  { assert (Hpos : exists i,
              FormatByteSizes.first_cases c24 !! i =
                Some (FormatByteSizes.Gl name, FormatByteSizes.IsType) /\ i <= 14).
    { cbn in Hname.
      destruct Hname as [<-|[<-|[<-|[<-|[<-|[<-|[<-|[<-|[<-|[<-|[]]]]]]]]]]];
        [exists 1|exists 2|exists 3|exists 4|exists 5|exists 6|exists 8|exists 10
        |exists 12|exists 14]; (split; [reflexivity|lia]). }
    destruct Hpos as (i & Hi & Hle).
    apply (switch_reaches context (Some v) _ i (FormatByteSizes.Gl name)); [done| |].
    - cbn [FormatByteSizes.eval]. unfold FormatByteSizes.prop. by rewrite Hgl, Hv.
    - replace (take i (FormatByteSizes.first_cases c24))
        with (take i (take 15 (FormatByteSizes.first_cases c24)))
        by (rewrite take_take; f_equal; lia).
      apply Forall_take.
      cbn. repeat (apply Forall_cons; split;
                     [split; [cbn; rewrite ?Hgl, ?Hfacade; by eexists
                             |first [by left | right; cbn; discriminate]]|]).
        constructor. }
  rewrite Hsw. reflexivity.
Qed.

Lemma byteSizeOfFormat_refuses_types_witness :
  FormatByteSizes.byteSizeOfFormat FormatMock.context (Some 5126%Z) =
    Throw (EvalError "expected format instead of type 5126").
Proof.
  apply (byteSizeOfFormat_refuses_types FormatMock.context FormatMock.constants
           (list_to_map [("HALF_FLOAT", 36193%Z)]) "FLOAT" 5126%Z).
  - reflexivity.
  - reflexivity.
  - intros H. discriminate H.
  - vm_compute. tauto.
  - vm_compute. reflexivity.
Defined.

(** The two switches behind the assertion on the depth formats. *)
Lemma byteSizeOfFormat_depends (context : FormatByteSizes.Context)
    (format : option Z) :
  FormatByteSizes.byteSizeOfFormat context format =
    Throw (EvalError FormatByteSizes.depends_message) ->
  exists a b c d e,
    FormatByteSizes.switch context format
      (FormatByteSizes.second_cases a b c d e) FormatByteSizes.Unknown =
      Normal FormatByteSizes.DependsOnRenderBuffer.
Proof.
  unfold FormatByteSizes.byteSizeOfFormat, mbind, FormatByteSizes.Completion_bind,
    mret, FormatByteSizes.Completion_ret, assert, FormatByteSizes.extension,
    FormatByteSizes.prop.
  intros H.
  repeat match type of H with
         | context [if ?b then _ else _] => destruct b
         | context [match ?o with Some _ => _ | None => _ end] =>
             destruct o; try discriminate H
         end;
    repeat match type of H with
           | context [FormatByteSizes.switch ?c ?f ?cs ?d] =>
               let E := fresh "E" in
               destruct (FormatByteSizes.switch c f cs d) as [[]|err] eqn:E;
               try discriminate H;
               try (apply switch_throws in E; subst err; discriminate H)
           end;
    eauto 10.
Qed.

(** X18. The assertion that the byte size "depends on active render
    buffer" is raised for the format [gl.DEPTH_COMPONENT] only. The format
    that raises it is defined, is the value of [gl.DEPTH_COMPONENT], and is
    not the value of [gl.DEPTH_STENCIL]: for [gl.DEPTH_STENCIL] the label
    that returns 4 bytes stands before the one at the assertion, which is
    never reached. *)
Theorem byteSizeOfFormat_depth_assertion (context : FormatByteSizes.Context)
    (format : option Z) :
  FormatByteSizes.byteSizeOfFormat context format =
    Throw (EvalError FormatByteSizes.depends_message) ->
  exists m v,
    format = Some v /\
    FormatByteSizes.gl context = Some m /\
    m !! "DEPTH_COMPONENT" = Some v /\
    m !! "DEPTH_STENCIL" <> Some v.
Proof.
  intros H.
  destruct (byteSizeOfFormat_depends context format H) as (a & b & c & d & e & Hsw).
  assert (Hstencil : FormatByteSizes.eval context (FormatByteSizes.Gl "DEPTH_STENCIL")
                     <> Normal format).
  { intros Hl.
    apply (switch_shadow context format
             ((FormatByteSizes.Undefined, FormatByteSizes.Unknown)
                :: FormatByteSizes.sizes_to_3 b)
             _ (FormatByteSizes.Gl "DEPTH_STENCIL") (FormatByteSizes.Size 4))
      in Hsw; [|exact Hl].
    destruct Hsw as [Hsw|Hsw]; [discriminate Hsw|].
    cbn in Hsw. repeat (destruct Hsw as [Hsw|Hsw]; [discriminate Hsw|]).
    destruct Hsw. }
  assert (Hdefined : format <> None).
  { intros ->.
    apply (switch_shadow context None [] _ FormatByteSizes.Undefined) in Hsw;
      [|reflexivity].
    destruct Hsw as [Hsw|[]]. discriminate Hsw. }
  apply switch_matched in Hsw as [Hsw|(l & Hin & Hl)]; [discriminate Hsw|].
  assert (Hlabel : l = FormatByteSizes.Gl "DEPTH_COMPONENT" \/
                   l = FormatByteSizes.Gl "DEPTH_STENCIL").
  { cbn in Hin.
    repeat (destruct Hin as [Hin|Hin];
            [first [discriminate Hin | injection Hin as <-; tauto]|]).
    destruct Hin. }
  destruct Hlabel as [->| ->]; [|by destruct Hstencil].
  cbn in Hl, Hstencil. unfold FormatByteSizes.prop in Hl, Hstencil.
  destruct (FormatByteSizes.gl context) as [m|]; [|discriminate Hl].
  injection Hl as Hl. destruct format as [v|]; [|done].
  exists m, v. repeat split; [done|]. intros Hs. apply Hstencil. by rewrite Hs.
Qed.

Lemma byteSizeOfFormat_depth_assertion_witness :
  FormatByteSizes.byteSizeOfFormat FormatMock.context (Some 6402%Z) =
    Throw (EvalError FormatByteSizes.depends_message) /\
  FormatByteSizes.byteSizeOfFormat FormatMock.context (Some 34041%Z) = Normal 4%Z /\
  exists m, FormatByteSizes.gl FormatMock.context = Some m /\
            m !! "DEPTH_COMPONENT" = Some 6402%Z.
Proof.
  assert (H : FormatByteSizes.byteSizeOfFormat FormatMock.context (Some 6402%Z) =
              Throw (EvalError FormatByteSizes.depends_message))
    by (vm_compute; reflexivity).
  split; [exact H|]. split; [vm_compute; reflexivity|].
  destruct (byteSizeOfFormat_depth_assertion FormatMock.context (Some 6402%Z) H)
    as (m & v & Hv & Hm & Hc & _).
  exists m. split; [exact Hm|]. injection Hv as <-. exact Hc.
Defined.

(** ** The renderer *)

(** X19. Frames go to the renderer that was wired in last: every call of a
    renderer's [frame] made by the per-frame callback is made on the
    renderer the controller holds, so after [set controllable(r)] it is made
    on [r], whatever renderer was wired in before; and a controller that
    never had a renderer wired in calls none. *)
Theorem frames_go_to_the_wired_renderer (time : number) (frame : XRFrame)
    (w : World) :
  (forall r t a,
     In (EvRendererFrame r t a) (trace (onXRFrame time frame w)) ->
     renderer (this w) = Some r) /\
  (forall r r' t a,
     In (EvRendererFrame r' t a)
        (trace (onXRFrame time frame (final (controllable r w)))) ->
     r' = r) /\
  (renderer (this w) = None ->
   submissions (trace (onXRFrame time frame w)) = []).
Proof.
  assert (Hany : forall w0 r t a,
            In (EvRendererFrame r t a) (trace (onXRFrame time frame w0)) ->
            renderer (this w0) = Some r).
  { intros w0 r t a Hin.
    destruct (onXRFrame_frame_run time frame w0)
      as [Hs|s Hs Hp|s pose Hs Hp Hg|s pose g Hs Hp Hg];
      cbn [trace] in Hin.
    - destruct Hin.
    - simpl in Hin. destruct Hin as [Hin|[Hin|[Hin|[]]]]; discriminate Hin.
    - simpl in Hin. destruct Hin as [Hin|[Hin|[]]]; discriminate Hin.
    - simpl in Hin. destruct Hin as [Hin|[Hin|[Hin|Hin]]]; try discriminate Hin.
      apply in_app_or in Hin as [Hin|Hin].
      + exfalso. pose proof (fill_trace_view_events pose s (views frame) 0
                               (renderViews (this w0)) (heap w0)) as Hall.
        rewrite Forall_forall in Hall. apply list_elem_of_In, Hall in Hin.
        discriminate Hin.
      + destruct (renderer (this w0)) as [r0|]; [|destruct Hin].
        destruct Hin as [Hin|[]]. by injection Hin as -> _ _. }
  split; [apply Hany|]. split.
  - intros r r' t a Hin. apply Hany in Hin. cbn in Hin. congruence.
  - intros Hr.
    destruct (submissions (trace (onXRFrame time frame w))) as [|[t a] rest] eqn:E;
      [done|].
    assert (Hin : In (t, a) (submissions (trace (onXRFrame time frame w))))
      by (rewrite E; by left).
    unfold submissions in Hin. apply list_elem_of_In, list_elem_of_omap in Hin.
    destruct Hin as (ev & Hev & Hsome). destruct ev; try discriminate Hsome.
    injection Hsome as <- <-. apply list_elem_of_In, Hany in Hev. congruence.
Qed.
